(** * Worktree manager of lazygit: a shallow embedding of
      [pkg/commands/worktree_mgr.go] and the properties of its operations.

    The manager talks to the outside world only through collaborators (the
    git command runner, the status loader, the filesystem, the configuration,
    the branch and submodule managers).  Every operation is embedded as a
    computation that reads the history of collaborator calls made so far,
    and returns its Go result together with the calls it issued, in order:
    the recording mock that the Go tests of this package use. *)

From Stdlib Require Import String List Bool Arith Lia.
Import ListNotations.
Local Open Scope string_scope.
Local Open Scope list_scope.
Set Warnings "-register-all".

(** ** Data model *)

Module models.

(** Modelled from the spec: [models.File] is declared outside this file; a
    file record identifies a path and carries a short status code, the flags
    has-staged-changes, has-merge-conflicts, added and tracked, and a
    previous name that is non-empty for a rename.  The fields are named as
    the worktree manager reads them.  A record is a value: Go's nil pointers
    to records are left out. *)
Record File := mkFile {
  Name : string;
  PreviousName : string;
  ShortStatus : string;
  HasStagedChanges : bool;
  HasMergeConflicts : bool;
  Added : bool;
  Tracked : bool
}.

(** Modelled from the spec: [models.File.IsRename] is declared outside this
    file; a record is a rename iff its previous-name is set and non-empty. *)
Definition IsRename (f : File) : bool := negb (PreviousName f =? "").

(** Modelled from the spec: [models.File.GetIsTracked] is declared outside
    this file; it reads the record's tracked flag. *)
Definition GetIsTracked (f : File) : bool := Tracked f.

(** Modelled from the spec: the submodule configuration set is an opaque
    list handed to and from the submodule collaborator. *)
Record SubmoduleConfig := mkSubmoduleConfig {
  SubmoduleName : string;
  SubmodulePath : string;
  SubmoduleUrl : string
}.

End models.
Import models.

(** Modelled from the spec: [filetree.FileNode] is declared outside this file;
    a tree node optionally wraps a single file record and aggregates child
    nodes, and can list the paths of the nodes that satisfy a predicate
    (the node itself first, then its children in order). *)
Module filetree.

Inductive FileNode :=
| mkFileNode (Children : list FileNode) (File : option models.File) (Path : string).

Definition Children (n : FileNode) : list FileNode :=
  match n with mkFileNode cs _ _ => cs end.

Definition File (n : FileNode) : option models.File :=
  match n with mkFileNode _ f _ => f end.

Definition GetPath (n : FileNode) : string :=
  match n with mkFileNode _ _ p => p end.

Fixpoint GetPathsMatching (test : FileNode -> bool) (n : FileNode) : list string :=
  match n with
  | mkFileNode cs _ p =>
      (if test n then [p] else []) ++ flat_map (GetPathsMatching test) cs
  end.

(** [Under root n]: the node [n] is [root] or one of its descendants. *)
Inductive Under : FileNode -> FileNode -> Prop :=
| Under_self n : Under n n
| Under_child cs f p c n : In c cs -> Under c n -> Under (mkFileNode cs f p) n.

End filetree.

(** Go's [error] values.  [errors_New msg] is [errors.New(msg)] of this file;
    the other two are what the collaborators hand back. *)
Inductive error :=
| errors_New (msg : string)
| ExecutionError (msg : string)
| FilesystemError (msg : string).

(** A Go result of type [error]: [None] is [nil]. *)
Definition goerror := option error.

(** Modelled from the spec: the command object is declared outside this
    file; it is a command line together with the way it is to be run, and is
    named here after the builder that makes it ([BuildShellCmdObj] for the
    shell mode). *)
Inductive ICmdObj :=
| NewCmdObjFromStr (cmdStr : string)
| BuildGitCmdObjFromStr (cmdStr : string)
| BuildShellCmdObj (cmdStr : string).

(** Modelled from the spec: the options of the status loader and the modes
    of a reset are declared outside this file. *)
Record LoadStatusFilesOpts := mkOpts { NoRenames : bool }.

Inductive ResetStrength := SOFT | MIXED | HARD.

(** ** Collaborator calls and their recording *)

(** One call to a collaborator, with its arguments: the status loader, the
    git command runner ([RunGitCmdFromStr]), the command runner ([Run]), the
    filesystem ([c.os.RemoveFile], Go's own [os.Remove],
    [c.os.AppendLineToFile], [c.os.Getenv]), the configuration (the user
    configuration read for [OS.EditCommand], [GetConfigValue]), the submodule
    manager and the branch manager (whose [ResetToRef] always gets empty
    options here). *)
Inductive Call :=
| StatusLoad (opts : LoadStatusFilesOpts)
| GitCmd (cmdStr : string)
| RunCmdObj (cmdObj : ICmdObj)
| RemoveFile (path : string)
| OsRemove (path : string)
| AppendLineToFile (file line : string)
| Getenv (key : string)
| GetUserConfig
| GetConfigValue (key : string)
| GetConfigs
| StashAndReset (configs : list SubmoduleConfig)
| ResetToRef (ref : string) (strength : ResetStrength).

Definition History := list Call.

(** The receiver [c *WorktreeMgr].  Its collaborators are declared outside
    this file and are taken as parameters: what each of them answers, given
    the calls made before.  [Quote] is the shell quoting of the platform. *)
Record WorktreeMgr := mkWorktreeMgr {
  Quote : string -> string;
  runGitCmdFromStr : History -> string -> goerror;
  run : History -> ICmdObj -> goerror;
  os_RemoveFile : History -> string -> goerror;
  os_AppendLineToFile : History -> string -> string -> goerror;
  os_Getenv : History -> string -> string;
  os_Remove : History -> string -> goerror;
  config_EditCommand : History -> string;
  config_GetConfigValue : History -> string -> string;
  statusFilesLoader_Load : History -> LoadStatusFilesOpts -> list File;
  branchesMgr_ResetToRef : History -> string -> ResetStrength -> goerror;
  submodulesMgr_GetConfigs : History -> list SubmoduleConfig * goerror;
  submodulesMgr_StashAndReset : History -> list SubmoduleConfig -> goerror
}.

(** A computation reads the history and yields its result and the calls it
    issued, oldest first. *)
Definition M (A : Type) : Type := History -> A * list Call.

Definition ret {A} (a : A) : M A := fun _ => (a, []).

Definition bind {A B} (m : M A) (f : A -> M B) : M B :=
  fun h =>
    let (a, t1) := m h in
    let (b, t2) := f a (h ++ t1) in
    (b, t1 ++ t2).

Definition perform {A} (call : Call) (answer : History -> A) : M A :=
  fun h => (answer h, [call]).

Declare Scope wt_scope.
Delimit Scope wt_scope with wt.
Notation "x <- m ;; k" := (bind m (fun x => k))
  (at level 61, m at next level, right associativity) : wt_scope.
Local Open Scope wt_scope.

(** The result and the issued calls of a computation run after [h]. *)
Definition result {A} (m : M A) (h : History) : A := fst (m h).
Definition issued {A} (m : M A) (h : History) : list Call := snd (m h).

(** A Go [for ... range] loop whose body returns early on a non-nil error. *)
Fixpoint rangeUntilError {A} (body : A -> M goerror) (xs : list A) : M goerror :=
  match xs with
  | [] => ret None
  | x :: rest =>
      err <- body x ;;
      match err with
      | Some e => ret (Some e)
      | None => rangeUntilError body rest
      end
  end.

(** What a call of [DiscardAllFileChanges] with a bounded call stack does:
    it returns its Go result, or needs a deeper stack. *)
Inductive outcome :=
| Finished (err : goerror)
| OutOfStack.

(** ** The operations of [WorktreeMgr] *)

Section Operations.

Variable c : WorktreeMgr.

Definition RunGitCmdFromStr (cmdStr : string) : M goerror :=
  perform (GitCmd cmdStr) (fun h => runGitCmdFromStr c h cmdStr).

Definition Run (cmdObj : ICmdObj) : M goerror :=
  perform (RunCmdObj cmdObj) (fun h => run c h cmdObj).

Definition LoadStatusFiles (opts : LoadStatusFilesOpts) : M (list File) :=
  perform (StatusLoad opts) (fun h => statusFilesLoader_Load c h opts).

Definition OpenMergeToolCmdObj : ICmdObj := BuildGitCmdObjFromStr "mergetool".

Definition StageFile (fileName : string) : M goerror :=
  RunGitCmdFromStr ("add -- " ++ Quote c fileName).

Definition StageAll : M goerror := RunGitCmdFromStr "add -A".

Definition UnstageAll : M goerror := RunGitCmdFromStr "reset".

Definition UnStageFile (fileNames : list string) (reset : bool) : M goerror :=
  let cmdFormat := if reset then "reset HEAD -- " else "rm --cached --force -- " in
  rangeUntilError
    (fun name => RunGitCmdFromStr (cmdFormat ++ Quote c name))
    fileNames.

(** The loop of [beforeAndAfterFileForRename]: a later record with the same
    name overwrites an earlier one. *)
Definition pickBeforeAfter (file : File)
    (acc : option File * option File) (f : File) : option File * option File :=
  let beforeFile := if Name f =? PreviousName file then Some f else fst acc in
  let afterFile := if Name f =? Name file then Some f else snd acc in
  (beforeFile, afterFile).

Definition beforeAndAfterFileForRename (file : File) : M (File * File + error) :=
  if negb (IsRename file) then ret (inr (errors_New "Expected renamed file"))
  else
    filesWithoutRenames <- LoadStatusFiles (mkOpts true) ;;
    match fold_left (pickBeforeAfter file) filesWithoutRenames (None, None) with
    | (Some beforeFile, Some afterFile) =>
        if IsRename beforeFile || IsRename afterFile
        then ret (inr (errors_New "Nested rename found"))
        else ret (inl (beforeFile, afterFile))
    | _ =>
        ret (inr (errors_New "Could not find deleted file or new file for file rename"))
    end.

Definition DiscardUnstagedFileChanges (file : File) : M goerror :=
  let quotedFileName := Quote c (Name file) in
  RunGitCmdFromStr ("checkout -- " ++ quotedFileName).

Fixpoint DiscardAllFileChanges (stack : nat) (file : File) {struct stack} : M outcome :=
  match stack with
  | 0 => ret OutOfStack
  | S stack' =>
      if IsRename file then
        r <- beforeAndAfterFileForRename file ;;
        match r with
        | inr err => ret (Finished (Some err))
        | inl (beforeFile, afterFile) =>
            o1 <- DiscardAllFileChanges stack' beforeFile ;;
            match o1 with
            | OutOfStack => ret OutOfStack
            | Finished (Some err) => ret (Finished (Some err))
            | Finished None =>
                o2 <- DiscardAllFileChanges stack' afterFile ;;
                match o2 with
                | OutOfStack => ret OutOfStack
                | Finished (Some err) => ret (Finished (Some err))
                | Finished None => ret (Finished None)
                end
            end
        end
      else
        let quotedFileName := Quote c (Name file) in
        if ShortStatus file =? "AA" then
          err <- RunGitCmdFromStr ("checkout --ours --  " ++ quotedFileName) ;;
          match err with
          | Some e => ret (Finished (Some e))
          | None =>
              err' <- RunGitCmdFromStr ("add " ++ quotedFileName) ;;
              match err' with
              | Some e => ret (Finished (Some e))
              | None => ret (Finished None)
              end
          end
        else if ShortStatus file =? "DU" then
          err <- RunGitCmdFromStr ("rm " ++ quotedFileName) ;;
          ret (Finished err)
        else
          err <- (if HasStagedChanges file || HasMergeConflicts file
                  then RunGitCmdFromStr ("reset -- " ++ quotedFileName)
                  else ret None) ;;
          match err with
          | Some e => ret (Finished (Some e))
          | None =>
              if (ShortStatus file =? "DD") || (ShortStatus file =? "AU")
              then ret (Finished None)
              else if Added file then
                err' <- perform (RemoveFile (Name file))
                                (fun h => os_RemoveFile c h (Name file)) ;;
                ret (Finished err')
              else
                err' <- DiscardUnstagedFileChanges file ;;
                ret (Finished err')
          end
  end.

Definition isUntrackedFile (n : filetree.FileNode) : bool :=
  match filetree.File n with
  | Some f => negb (GetIsTracked f)
  | None => false
  end.

Definition removeUntrackedDirFiles (node : filetree.FileNode) : M goerror :=
  let untrackedFilePaths := filetree.GetPathsMatching isUntrackedFile node in
  rangeUntilError
    (fun path => perform (OsRemove path) (fun h => os_Remove c h path))
    untrackedFilePaths.

Definition DiscardUnstagedDirChanges (node : filetree.FileNode) : M goerror :=
  err <- removeUntrackedDirFiles node ;;
  match err with
  | Some e => ret (Some e)
  | None =>
      let quotedPath := Quote c (filetree.GetPath node) in
      err' <- RunGitCmdFromStr ("checkout -- " ++ quotedPath) ;;
      match err' with
      | Some e => ret (Some e)
      | None => ret None
      end
  end.

Definition Ignore (filename : string) : M goerror :=
  perform (AppendLineToFile ".gitignore" filename)
          (fun h => os_AppendLineToFile c h ".gitignore" filename).

Definition CheckoutFile (commitSha fileName : string) : M goerror :=
  RunGitCmdFromStr ("checkout " ++ commitSha ++ " " ++ fileName).

Definition DiscardAnyUnstagedFileChanges : M goerror :=
  RunGitCmdFromStr "checkout -- .".

Definition RemoveTrackedFiles (name : string) : M goerror :=
  RunGitCmdFromStr ("rm -r --cached " ++ name).

Definition RemoveUntrackedFiles : M goerror := RunGitCmdFromStr "clean -fd".

Definition ResetAndClean : M goerror :=
  r <- perform GetConfigs (fun h => submodulesMgr_GetConfigs c h) ;;
  match r with
  | (_, Some err) => ret (Some err)
  | (submoduleConfigs, None) =>
      err <- (if (0 <? length submoduleConfigs)%nat
              then perform (StashAndReset submoduleConfigs)
                           (fun h => submodulesMgr_StashAndReset c h submoduleConfigs)
              else ret None) ;;
      match err with
      | Some e => ret (Some e)
      | None =>
          err' <- perform (ResetToRef "HEAD" HARD)
                          (fun h => branchesMgr_ResetToRef c h "HEAD" HARD) ;;
          match err' with
          | Some e => ret (Some e)
          | None => RemoveUntrackedFiles
          end
      end
  end.

(** One step of the editor fallback chain: a source is consulted only
    while no editor has been found. *)
Definition orElse (editor : string) (source : M string) : M string :=
  if editor =? "" then source else ret editor.

Definition EditFileCmdObj (filename : string) : M (ICmdObj + error) :=
  editor <- perform GetUserConfig (fun h => config_EditCommand c h) ;;
  editor <- orElse editor
              (perform (GetConfigValue "core.editor")
                       (fun h => config_GetConfigValue c h "core.editor")) ;;
  editor <- orElse editor
              (perform (Getenv "GIT_EDITOR") (fun h => os_Getenv c h "GIT_EDITOR")) ;;
  editor <- orElse editor
              (perform (Getenv "VISUAL") (fun h => os_Getenv c h "VISUAL")) ;;
  editor <- orElse editor
              (perform (Getenv "EDITOR") (fun h => os_Getenv c h "EDITOR")) ;;
  editor <- orElse editor
              (err <- Run (NewCmdObjFromStr "which vi") ;;
               match err with
               | None => ret "vi"
               | Some _ => ret ""
               end) ;;
  if editor =? ""
  then ret (inr (errors_New
         "No editor defined in config file, $GIT_EDITOR, $VISUAL, $EDITOR, or git config"))
  else ret (inl (BuildShellCmdObj (editor ++ " " ++ Quote c filename))).

End Operations.

(** ** A scripted manager for concrete runs *)

(** Every collaborator succeeds and has nothing to report; paths are quoted
    with single quotes. *)
Definition quietMgr : WorktreeMgr := {|
  Quote := fun s => ("'" ++ s ++ "'")%string;
  runGitCmdFromStr := fun _ _ => None;
  run := fun _ _ => None;
  os_RemoveFile := fun _ _ => None;
  os_AppendLineToFile := fun _ _ _ => None;
  os_Getenv := fun _ _ => "";
  os_Remove := fun _ _ => None;
  config_EditCommand := fun _ => "";
  config_GetConfigValue := fun _ _ => "";
  statusFilesLoader_Load := fun _ _ => [];
  branchesMgr_ResetToRef := fun _ _ _ => None;
  submodulesMgr_GetConfigs := fun _ => ([], None);
  submodulesMgr_StashAndReset := fun _ _ => None
|}.

(** [quietMgr] whose git runner answers by [git] and whose status loader
    answers by [files]. *)
Definition gitMgr (git : History -> string -> goerror)
    (files : LoadStatusFilesOpts -> list File) : WorktreeMgr := {|
  Quote := Quote quietMgr;
  runGitCmdFromStr := git;
  run := run quietMgr;
  os_RemoveFile := os_RemoveFile quietMgr;
  os_AppendLineToFile := os_AppendLineToFile quietMgr;
  os_Getenv := os_Getenv quietMgr;
  os_Remove := os_Remove quietMgr;
  config_EditCommand := config_EditCommand quietMgr;
  config_GetConfigValue := config_GetConfigValue quietMgr;
  statusFilesLoader_Load := fun _ => files;
  branchesMgr_ResetToRef := branchesMgr_ResetToRef quietMgr;
  submodulesMgr_GetConfigs := submodulesMgr_GetConfigs quietMgr;
  submodulesMgr_StashAndReset := submodulesMgr_StashAndReset quietMgr
|}.

(** A git runner that fails exactly on the command line [bad]. *)
Definition failOn (bad : string) : History -> string -> goerror :=
  fun _ cmdStr =>
    if (cmdStr =? bad)%string then Some (ExecutionError bad) else None.

(** ** Specification-side definitions and scripted runs *)

(** Every element before position [k] was answered with [nil] when its call,
    built by [mk], was made. *)
Definition allSucceedBefore {A} (mk : A -> Call) (answer : History -> A -> goerror)
    (k : nat) (xs : list A) (h : History) : Prop :=
  forall i x, i < k -> nth_error xs i = Some x ->
    answer (h ++ map mk (firstn i xs)) x = None.

(** The command of [UnStageFile] for one path without reset semantics, and
    what the git runner answers to it. *)
Definition cachedRemoval (c : WorktreeMgr) (path : string) : Call :=
  GitCmd ("rm --cached --force -- " ++ Quote c path).

Definition cachedRemovalAnswer (c : WorktreeMgr) (h : History) (path : string) : goerror :=
  runGitCmdFromStr c h ("rm --cached --force -- " ++ Quote c path).

(** The mock of the Go test: unstaging b.txt succeeds, unstaging a.txt fails. *)
Definition unstageMock : WorktreeMgr :=
  gitMgr (failOn "rm --cached --force -- 'a.txt'") (fun _ => []).

(** The calls that change the index or the working tree. *)
Definition isMutation (call : Call) : bool :=
  match call with
  | GitCmd _ | RemoveFile _ | OsRemove _ => true
  | _ => false
  end.

Definition isStatusLoad (call : Call) : bool :=
  match call with
  | StatusLoad _ => true
  | _ => false
  end.

Definition isGitCmd (call : Call) : bool :=
  match call with
  | GitCmd _ => true
  | _ => false
  end.

(** The status loads among the calls of a trace, in order. *)
Definition reloads (t : list Call) : list Call := filter isStatusLoad t.

(** The git commands among the calls of a trace, in order. *)
Definition gitCmds (t : list Call) : list Call := filter isGitCmd t.

(** The record of a reload that a name resolves to: the last one carrying it. *)
Definition matched (name : string) (files : list File) : option File :=
  find (fun f => Name f =? name) (rev files).

(** The two messages of [beforeAndAfterFileForRename] that report a rename
    whose halves cannot be resolved. *)
Definition RenameResolutionError (e : error) : Prop :=
  e = errors_New "Could not find deleted file or new file for file rename" \/
  e = errors_New "Nested rename found".

Ltac run_cases :=
  repeat match goal with
         | |- context [if ?b then _ else _] => destruct b
         | |- context [match ?o with Some _ => _ | None => _ end] => destruct o
         end.

(** A rename whose new half is missing from the reload. *)
Definition renamedFile : File :=
  mkFile "new.txt" "old.txt" "R " true false false true.

Definition deletedHalf : File :=
  mkFile "old.txt" "" "D " true false false true.

Definition addedHalf : File :=
  mkFile "new.txt" "" "A " true false true false.

Definition halfMissingMock : WorktreeMgr := gitMgr (fun _ _ => None) (fun _ => [deletedHalf]).

Definition conflictedFile : File :=
  mkFile "both.txt" "" "AA" true true false true.

Definition addFailsMock : WorktreeMgr := gitMgr (failOn "add 'both.txt'") (fun _ => []).

Definition bothDeletedFile : File :=
  mkFile "gone.txt" "" "DD" false true false true.

Definition isRemoveFile (call : Call) : bool :=
  match call with
  | RemoveFile _ => true
  | _ => false
  end.

(** A file added on their side of a merge: not staged, in conflict. *)
Definition addedByThemFile : File :=
  mkFile "theirs.txt" "" "UA" false true true true.

(** A record flagged as added although both sides deleted the path. *)
Definition addedBothDeletedFile : File :=
  mkFile "gone.txt" "" "DD" false false true true.

Definition untrackedNewFile : File :=
  mkFile "new.txt" "" "??" false false true false.

(** A rename whose halves both resolve. *)
Definition renameMock : WorktreeMgr :=
  gitMgr (fun _ _ => None) (fun _ => [addedHalf; deletedHalf]).

(** The specification's fallback chain: the editor sources in their fixed
    order, each with the call that consults it and the candidate it yields. *)
Definition editorSources (c : WorktreeMgr) : list (Call * (History -> string)) :=
  [ (GetUserConfig, config_EditCommand c);
    (GetConfigValue "core.editor", fun h => config_GetConfigValue c h "core.editor");
    (Getenv "GIT_EDITOR", fun h => os_Getenv c h "GIT_EDITOR");
    (Getenv "VISUAL", fun h => os_Getenv c h "VISUAL");
    (Getenv "EDITOR", fun h => os_Getenv c h "EDITOR");
    (RunCmdObj (NewCmdObjFromStr "which vi"),
     fun h => match run c h (NewCmdObjFromStr "which vi") with
              | None => "vi"
              | Some _ => ""
              end) ].

(** The specification's reading of the chain: consult the sources lazily and
    keep the first candidate that is not empty. *)
Fixpoint firstNonEmpty (sources : list (Call * (History -> string))) : M string :=
  match sources with
  | [] => ret ""
  | s :: rest =>
      v <- perform (fst s) (snd s) ;;
      if v =? "" then firstNonEmpty rest else ret v
  end.

(** Every source before position [k] yielded the empty string when it was
    consulted. *)
Definition allEmptyBefore (k : nat) (sources : list (Call * (History -> string)))
    (h : History) : Prop :=
  forall i s, i < k -> nth_error sources i = Some s ->
    snd s (h ++ map fst (firstn i sources)) = "".

Definition NoEditorConfiguredError (e : error) : Prop :=
  e = errors_New
        "No editor defined in config file, $GIT_EDITOR, $VISUAL, $EDITOR, or git config".

(** VISUAL and EDITOR are both set, nothing before them is. *)
Definition editorMock : WorktreeMgr := {|
  Quote := Quote quietMgr;
  runGitCmdFromStr := runGitCmdFromStr quietMgr;
  run := run quietMgr;
  os_RemoveFile := os_RemoveFile quietMgr;
  os_AppendLineToFile := os_AppendLineToFile quietMgr;
  os_Getenv := fun _ key =>
    if key =? "VISUAL" then "nano" else if key =? "EDITOR" then "emacs" else "";
  os_Remove := os_Remove quietMgr;
  config_EditCommand := config_EditCommand quietMgr;
  config_GetConfigValue := config_GetConfigValue quietMgr;
  statusFilesLoader_Load := statusFilesLoader_Load quietMgr;
  branchesMgr_ResetToRef := branchesMgr_ResetToRef quietMgr;
  submodulesMgr_GetConfigs := submodulesMgr_GetConfigs quietMgr;
  submodulesMgr_StashAndReset := submodulesMgr_StashAndReset quietMgr
|}.

(** No editor anywhere, and no vi on the search path. *)
Definition noEditorMock : WorktreeMgr := {|
  Quote := Quote quietMgr;
  runGitCmdFromStr := runGitCmdFromStr quietMgr;
  run := fun _ _ => Some (ExecutionError "which vi");
  os_RemoveFile := os_RemoveFile quietMgr;
  os_AppendLineToFile := os_AppendLineToFile quietMgr;
  os_Getenv := os_Getenv quietMgr;
  os_Remove := os_Remove quietMgr;
  config_EditCommand := config_EditCommand quietMgr;
  config_GetConfigValue := config_GetConfigValue quietMgr;
  statusFilesLoader_Load := statusFilesLoader_Load quietMgr;
  branchesMgr_ResetToRef := branchesMgr_ResetToRef quietMgr;
  submodulesMgr_GetConfigs := submodulesMgr_GetConfigs quietMgr;
  submodulesMgr_StashAndReset := submodulesMgr_StashAndReset quietMgr
|}.

Definition isStashAndReset (call : Call) : bool :=
  match call with
  | StashAndReset _ => true
  | _ => false
  end.

Definition oneSubmodule : SubmoduleConfig :=
  mkSubmoduleConfig "vendor" "vendor/lib" "https://example.org/lib.git".

(** One configured submodule, whose stash-and-reset fails. *)
Definition stashFailsMock : WorktreeMgr := {|
  Quote := Quote quietMgr;
  runGitCmdFromStr := runGitCmdFromStr quietMgr;
  run := run quietMgr;
  os_RemoveFile := os_RemoveFile quietMgr;
  os_AppendLineToFile := os_AppendLineToFile quietMgr;
  os_Getenv := os_Getenv quietMgr;
  os_Remove := os_Remove quietMgr;
  config_EditCommand := config_EditCommand quietMgr;
  config_GetConfigValue := config_GetConfigValue quietMgr;
  statusFilesLoader_Load := statusFilesLoader_Load quietMgr;
  branchesMgr_ResetToRef := branchesMgr_ResetToRef quietMgr;
  submodulesMgr_GetConfigs := fun _ => ([oneSubmodule], None);
  submodulesMgr_StashAndReset := fun _ _ => Some (ExecutionError "stash")
|}.

(** The paths that [removeUntrackedDirFiles] removes, in order. *)
Definition untrackedPaths (node : filetree.FileNode) : list string :=
  filetree.GetPathsMatching isUntrackedFile node.

(** A directory with a tracked file, an untracked file, and a subdirectory
    holding another untracked file. *)
Definition srcDir : filetree.FileNode :=
  filetree.mkFileNode
    [ filetree.mkFileNode [] (Some (mkFile "src/a.go" "" " M" false false false true))
        "src/a.go";
      filetree.mkFileNode [] (Some (mkFile "src/tmp.log" "" "??" false false true false))
        "src/tmp.log";
      filetree.mkFileNode
        [ filetree.mkFileNode []
            (Some (mkFile "src/gen/out.bin" "" "??" false false true false))
            "src/gen/out.bin" ]
        None "src/gen" ]
    None "src".

(** The removal of src/gen/out.bin is refused. *)
Definition removeFailsMock : WorktreeMgr := {|
  Quote := Quote quietMgr;
  runGitCmdFromStr := runGitCmdFromStr quietMgr;
  run := run quietMgr;
  os_RemoveFile := os_RemoveFile quietMgr;
  os_AppendLineToFile := os_AppendLineToFile quietMgr;
  os_Getenv := os_Getenv quietMgr;
  os_Remove := fun _ path =>
    if path =? "src/gen/out.bin" then Some (FilesystemError "permission denied") else None;
  config_EditCommand := config_EditCommand quietMgr;
  config_GetConfigValue := config_GetConfigValue quietMgr;
  statusFilesLoader_Load := statusFilesLoader_Load quietMgr;
  branchesMgr_ResetToRef := branchesMgr_ResetToRef quietMgr;
  submodulesMgr_GetConfigs := submodulesMgr_GetConfigs quietMgr;
  submodulesMgr_StashAndReset := submodulesMgr_StashAndReset quietMgr
|}.

(** A reload whose record for the old name is itself a rename. *)
Definition renamedAgain : File :=
  mkFile "old.txt" "older.txt" "R " true false false true.

Definition nestedRenameMock : WorktreeMgr :=
  gitMgr (fun _ _ => None) (fun _ => [renamedAgain; addedHalf]).

(** The command of [UnStageFile] for one path with reset semantics, and what
    the git runner answers to it. *)
Definition resetHead (c : WorktreeMgr) (path : string) : Call :=
  GitCmd ("reset HEAD -- " ++ Quote c path).

Definition resetHeadAnswer (c : WorktreeMgr) (h : History) (path : string) : goerror :=
  runGitCmdFromStr c h ("reset HEAD -- " ++ Quote c path).

(** The error a collaborator answers to a call made after [h]; the lookups
    (status load, environment, configuration values) answer no error. *)
Definition answerTo (c : WorktreeMgr) (h : History) (call : Call) : goerror :=
  match call with
  | GitCmd cmdStr => runGitCmdFromStr c h cmdStr
  | RunCmdObj cmdObj => run c h cmdObj
  | RemoveFile path => os_RemoveFile c h path
  | OsRemove path => os_Remove c h path
  | AppendLineToFile file line => os_AppendLineToFile c h file line
  | GetConfigs => snd (submodulesMgr_GetConfigs c h)
  | StashAndReset configs => submodulesMgr_StashAndReset c h configs
  | ResetToRef ref strength => branchesMgr_ResetToRef c h ref strength
  | StatusLoad _ | Getenv _ | GetUserConfig | GetConfigValue _ => None
  end.

(** [failFast c h t res]: in the calls [t] made after [h], every call but the
    last was answered without error, and [res] is the answer to the last one
    (nil when no call was made). *)
Fixpoint failFast (c : WorktreeMgr) (h : History) (t : list Call) (res : goerror) : Prop :=
  match t with
  | [] => res = None
  | x :: rest =>
      match rest with
      | [] => res = answerTo c h x
      | _ :: _ => answerTo c h x = None /\ failFast c (h ++ [x]) rest res
      end
  end.

(** The kinds of call a discard of one file may make. *)
Definition isDiscardCall (call : Call) : bool :=
  match call with
  | StatusLoad _ | GitCmd _ | RemoveFile _ => true
  | _ => false
  end.

(** The lookups of the editor chain, in order. *)
Definition editorCalls : list Call :=
  [GetUserConfig; GetConfigValue "core.editor"; Getenv "GIT_EDITOR";
   Getenv "VISUAL"; Getenv "EDITOR"; RunCmdObj (NewCmdObjFromStr "which vi")].

(** A file deleted on our side of a merge. *)
Definition deletedByUsFile : File :=
  mkFile "ours.txt" "" "DU" false true false true.

(** A tracked file with staged and unstaged edits. *)
Definition modifiedFile : File :=
  mkFile "main.go" "" "MM" true false false true.

(** A tracked file with unstaged edits only. *)
Definition editedFile : File :=
  mkFile "notes.md" "" " M" false false false true.

(** A directory whose files are all tracked. *)
Definition trackedDir : filetree.FileNode :=
  filetree.mkFileNode
    [ filetree.mkFileNode [] (Some editedFile) "docs/notes.md";
      filetree.mkFileNode
        [ filetree.mkFileNode [] (Some modifiedFile) "docs/api/main.go" ]
        None "docs/api" ]
    None "docs".

(** A new file that has been staged. *)
Definition stagedNewFile : File :=
  mkFile "fresh.txt" "" "A " true false true false.

(** A path deleted on both sides whose record carries no flag. *)
Definition settledDeletedFile : File :=
  mkFile "gone.txt" "" "DD" false false false true.

(** ** Discarding all changes under a directory *)

(** The loop over the children in [ForEachFile]: it stops at the first child
    that does not finish without error. *)
Definition eachChild (each : filetree.FileNode -> M outcome)
    : list filetree.FileNode -> M outcome :=
  fix go (children : list filetree.FileNode) : M outcome :=
    match children with
    | [] => ret (Finished None)
    | child :: rest =>
        o <- each child ;;
        match o with
        | Finished None => go rest
        | _ => ret o
        end
    end.

(** Modelled from the spec: [filetree.FileNode.ForEachFile] is declared
    outside this file; it applies the callback to every file record under the
    node, the record of the node itself first and then those of the children
    in order, and returns the first error, applying the callback to no later
    record.  The callback yields an [outcome], as [DiscardAllFileChanges] runs
    with a bounded stack. *)
Fixpoint ForEachFile (cb : File -> M outcome) (node : filetree.FileNode)
    {struct node} : M outcome :=
  match node with
  | filetree.mkFileNode children file _ =>
      o <- match file with
           | Some f => cb f
           | None => ret (Finished None)
           end ;;
      match o with
      | Finished None => eachChild (ForEachFile cb) children
      | _ => ret o
      end
  end.

(** [DiscardAllDirChanges], each discard of a file running with [stack]
    frames. *)
Definition DiscardAllDirChanges (c : WorktreeMgr) (stack : nat)
    (node : filetree.FileNode) : M outcome :=
  ForEachFile (DiscardAllFileChanges c stack) node.

(** The file records under a node, in the order [ForEachFile] visits them. *)
Fixpoint filesOf (node : filetree.FileNode) : list File :=
  match node with
  | filetree.mkFileNode children file _ =>
      match file with
      | Some f => [f]
      | None => []
      end ++ flat_map filesOf children
  end.

(** The callback applied to the records of a list in turn, up to the first
    one that does not finish without error. *)
Fixpoint eachUntilError (cb : File -> M outcome) (files : list File) : M outcome :=
  match files with
  | [] => ret (Finished None)
  | f :: rest =>
      o <- cb f ;;
      match o with
      | Finished None => eachUntilError cb rest
      | _ => ret o
      end
  end.

(** [discardedAll c h files t]: run after [h], the files were discarded one
    after the other, each without error, by the calls [t]. *)
Inductive discardedAll (c : WorktreeMgr) : History -> list File -> list Call -> Prop :=
| discardedAll_nil h : discardedAll c h [] []
| discardedAll_cons h f fs t ts :
    DiscardAllFileChanges c 2 f h = (Finished None, t) ->
    discardedAll c (h ++ t) fs ts ->
    discardedAll c h (f :: fs) (t ++ ts).

(** A directory with a changed tracked file and a new staged file. *)
Definition workDir : filetree.FileNode :=
  filetree.mkFileNode
    [ filetree.mkFileNode [] (Some editedFile) "notes.md";
      filetree.mkFileNode
        [ filetree.mkFileNode [] (Some stagedNewFile) "sub/fresh.txt";
          filetree.mkFileNode [] (Some modifiedFile) "sub/main.go" ]
        None "sub" ]
    None ".".

(** The reset of fresh.txt is refused. *)
Definition resetFailsMock : WorktreeMgr :=
  gitMgr (failOn "reset -- 'fresh.txt'") (fun _ => []).

Ltac run_cases_eq :=
  repeat match goal with
         | |- context [if ?b then _ else _] => destruct b eqn:?
         | |- context [match ?o with Some _ => _ | None => _ end] => destruct o eqn:?
         end.

(** ** Loops with early return *)

Section RangeUntilError.

Context {A : Type}.
Variable mk : A -> Call.
Variable answer : History -> A -> goerror.

Local Abbreviation body := (fun x => perform (mk x) (fun h => answer h x)).

Lemma allSucceedBefore_tail k x xs h :
  allSucceedBefore mk answer (S k) (x :: xs) h ->
  allSucceedBefore mk answer k xs (h ++ [mk x]).
Proof.
  intros H i y Hi Hy.
  specialize (H (S i) y (proj1 (Nat.succ_lt_mono i k) Hi) Hy).
  cbn [firstn map] in H. rewrite <- app_assoc. exact H.
Qed.

Lemma allSucceedBefore_head k x xs h :
  allSucceedBefore mk answer (S k) (x :: xs) h -> answer h x = None.
Proof.
  intros H. specialize (H 0 x (Nat.lt_0_succ k) eq_refl).
  cbn [firstn map] in H. rewrite app_nil_r in H. exact H.
Qed.

Lemma range_step x xs h :
  rangeUntilError body (x :: xs) h =
    match answer h x with
    | Some e => (Some e, [mk x])
    | None =>
        (fst (rangeUntilError body xs (h ++ [mk x])),
         mk x :: snd (rangeUntilError body xs (h ++ [mk x])))
    end.
Proof.
  cbn [rangeUntilError]. unfold bind, perform at 1.
  destruct (answer h x) as [e|]; [reflexivity|].
  destruct (rangeUntilError _ xs (h ++ [mk x])); reflexivity.
Qed.

Lemma range_all_ok xs : forall h,
  allSucceedBefore mk answer (length xs) xs h ->
  rangeUntilError body xs h = (None, map mk xs).
Proof.
  induction xs as [|x xs IH]; intros h H; [reflexivity|].
  rewrite range_step, (allSucceedBefore_head _ _ _ _ H).
  rewrite (IH _ (allSucceedBefore_tail _ _ _ _ H)). reflexivity.
Qed.

Lemma range_fail_at xs : forall h k x e,
  nth_error xs k = Some x ->
  allSucceedBefore mk answer k xs h ->
  answer (h ++ map mk (firstn k xs)) x = Some e ->
  rangeUntilError body xs h = (Some e, map mk (firstn (S k) xs)).
Proof.
  induction xs as [|y xs IH]; intros h k x e Hk Hok He.
  - destruct k; discriminate.
  - rewrite range_step. destruct k as [|k].
    + injection Hk as ->. cbn [firstn map] in He. rewrite app_nil_r in He.
      rewrite He. reflexivity.
    + rewrite (allSucceedBefore_head _ _ _ _ Hok).
      cbn [nth_error] in Hk. cbn [firstn map] in He.
      rewrite (IH (h ++ [mk y]) k x e Hk (allSucceedBefore_tail _ _ _ _ Hok)).
      * reflexivity.
      * rewrite <- app_assoc. exact He.
Qed.

(** The loop either runs through, or stops at its first failure. *)
Lemma range_cases xs : forall h,
  (allSucceedBefore mk answer (length xs) xs h /\
   rangeUntilError body xs h = (None, map mk xs))
  \/
  (exists k x e,
     nth_error xs k = Some x /\
     allSucceedBefore mk answer k xs h /\
     answer (h ++ map mk (firstn k xs)) x = Some e /\
     rangeUntilError body xs h = (Some e, map mk (firstn (S k) xs))).
Proof.
  induction xs as [|x xs IH]; intros h.
  - left. split; [|reflexivity]. intros i y Hi. inversion Hi.
  - destruct (answer h x) as [e|] eqn:Hx.
    + right. exists 0, x, e.
      assert (Hok : allSucceedBefore mk answer 0 (x :: xs) h) by (intros i y Hi; inversion Hi).
      assert (He : answer (h ++ map mk (firstn 0 (x :: xs))) x = Some e)
        by (cbn [firstn map]; rewrite app_nil_r; exact Hx).
      repeat split; try assumption.
      exact (range_fail_at (x :: xs) h 0 x e eq_refl Hok He).
    + assert (Hcons : forall k, allSucceedBefore mk answer k xs (h ++ [mk x]) ->
                                allSucceedBefore mk answer (S k) (x :: xs) h).
      { intros k Hk i y Hi Hy. destruct i as [|i].
        - injection Hy as <-. cbn [firstn map]. rewrite app_nil_r. exact Hx.
        - cbn [firstn map]. cbn [nth_error] in Hy.
          specialize (Hk i y (proj2 (Nat.succ_lt_mono i k) Hi) Hy).
          rewrite <- app_assoc in Hk. exact Hk. }
      destruct (IH (h ++ [mk x])) as [[Hall _] | (k & y & e & Hk & Hok & He & _)].
      * left. pose proof (Hcons _ Hall) as H. split; [exact H|].
        exact (range_all_ok (x :: xs) h H).
      * right. exists (S k), y, e.
        assert (He' : answer (h ++ map mk (firstn (S k) (x :: xs))) y = Some e)
          by (cbn [firstn map]; rewrite <- app_assoc in He; exact He).
        repeat split; try assumption; [exact (Hcons _ Hok)|].
        exact (range_fail_at (x :: xs) h (S k) y e Hk (Hcons _ Hok) He').
Qed.

(** The calls of the loop are those of a prefix of the list, in list order. *)
Lemma range_prefix xs h :
  exists k, k <= length xs /\
    snd (rangeUntilError body xs h) = map mk (firstn k xs) /\
    (fst (rangeUntilError body xs h) = None -> k = length xs).
Proof.
  destruct (range_cases xs h) as [[_ E] | (k & x & e & Hk & _ & _ & E)]; rewrite E.
  - exists (length xs). rewrite firstn_all. auto.
  - exists (S k). cbn [fst snd]. repeat split; [|discriminate].
    apply Nat.le_succ_l, nth_error_Some. congruence.
Qed.

End RangeUntilError.

(** ** Unstaging *)

Lemma UnStageFile_as_range (c : WorktreeMgr) (paths : list string) :
  UnStageFile c paths false =
    rangeUntilError
      (fun p => perform (cachedRemoval c p) (fun h => cachedRemovalAnswer c h p)) paths.
Proof. reflexivity. Qed.

(** C7: for a non-empty path list, [UnStageFile paths false] issues cached
    removals only, one per path of a prefix of the list and in list order
    (at least the first); it runs through the whole list and returns nil when
    no command fails; it stops at the first failing command and returns that
    command's error, the commands of the earlier paths having been issued once
    each and nothing issued after the failure; in particular for a list of two
    paths whose first command succeeds and whose second fails, both commands are
    issued in order and the second command's error is returned. *)
Theorem UnStageFile_cached_removals_in_order
    (c : WorktreeMgr) (paths : list string) (h : History) :
  paths <> [] ->
  (exists k, 1 <= k <= length paths /\
     issued (UnStageFile c paths false) h = map (cachedRemoval c) (firstn k paths) /\
     (result (UnStageFile c paths false) h = None -> k = length paths)) /\
  (allSucceedBefore (cachedRemoval c) (cachedRemovalAnswer c) (length paths) paths h ->
     UnStageFile c paths false h = (None, map (cachedRemoval c) paths)) /\
  (forall k p e,
     nth_error paths k = Some p ->
     allSucceedBefore (cachedRemoval c) (cachedRemovalAnswer c) k paths h ->
     cachedRemovalAnswer c (h ++ map (cachedRemoval c) (firstn k paths)) p = Some e ->
     UnStageFile c paths false h = (Some e, map (cachedRemoval c) (firstn (S k) paths))) /\
  (forall p1 p2 e,
     paths = [p1; p2] ->
     cachedRemovalAnswer c h p1 = None ->
     cachedRemovalAnswer c (h ++ [cachedRemoval c p1]) p2 = Some e ->
     UnStageFile c paths false h = (Some e, [cachedRemoval c p1; cachedRemoval c p2])).
Proof.
  intros Hne.
  assert (Hfail : forall k p e,
     nth_error paths k = Some p ->
     allSucceedBefore (cachedRemoval c) (cachedRemovalAnswer c) k paths h ->
     cachedRemovalAnswer c (h ++ map (cachedRemoval c) (firstn k paths)) p = Some e ->
     UnStageFile c paths false h = (Some e, map (cachedRemoval c) (firstn (S k) paths))).
  { intros k p e Hk Hok He.
    exact (range_fail_at (cachedRemoval c) (cachedRemovalAnswer c) paths h k p e Hk Hok He). }
  repeat split.
  - destruct (range_cases (cachedRemoval c) (cachedRemovalAnswer c) paths h)
      as [[_ E] | (k & x & e & Hk & _ & _ & E)].
    + exists (length paths). unfold issued, result.
      rewrite UnStageFile_as_range, E.
      rewrite firstn_all. repeat split; auto.
      destruct paths; [congruence | cbn; lia].
    + exists (S k). unfold issued, result.
      rewrite UnStageFile_as_range, E. cbn [fst snd].
      assert (k < length paths) by (apply nth_error_Some; congruence).
      repeat split; [lia | lia | discriminate].
  - intros Hok.
    exact (range_all_ok (cachedRemoval c) (cachedRemovalAnswer c) paths h Hok).
  - exact Hfail.
  - intros p1 p2 e -> H1 H2.
    apply (Hfail 1 p2 e eq_refl).
    + intros i x Hi Hx. assert (i = 0) by lia. subst i.
      injection Hx as <-. cbn [firstn map]. rewrite app_nil_r. exact H1.
    + exact H2.
Qed.

Lemma UnStageFile_cached_removals_in_order_witness :
  UnStageFile unstageMock ["b.txt"; "a.txt"] false [] =
    (Some (ExecutionError "rm --cached --force -- 'a.txt'"),
     [GitCmd "rm --cached --force -- 'b.txt'"; GitCmd "rm --cached --force -- 'a.txt'"]).
Proof.
  assert (Hne : ["b.txt"; "a.txt"] <> @nil string) by discriminate.
  apply (proj2 (proj2 (proj2
           (UnStageFile_cached_removals_in_order unstageMock ["b.txt"; "a.txt"] [] Hne)))
         "b.txt" "a.txt" (ExecutionError "rm --cached --force -- 'a.txt'")
         eq_refl); reflexivity.
Defined.

(** C10: [UnStageFile] on an empty path list returns nil and issues no
    command, whatever the reset flag. *)
Theorem UnStageFile_empty (c : WorktreeMgr) (reset : bool) (h : History) :
  UnStageFile c [] reset h = (None, []).
Proof. destruct reset; reflexivity. Qed.

(** ** Discarding the changes of one file *)

Lemma find_skip {A} (p : A -> bool) (l l' : list A) :
  (forall x, In x l -> p x = false) -> find p (l ++ l') = find p l'.
Proof.
  induction l as [|x l IH]; intros H; [reflexivity|].
  cbn. rewrite (H x (or_introl eq_refl)). apply IH.
  intros y Hy. apply H. right. exact Hy.
Qed.

Lemma matched_snoc name files g :
  matched name (files ++ [g]) =
    if Name g =? name then Some g else matched name files.
Proof. unfold matched. rewrite rev_app_distr. reflexivity. Qed.

Lemma matched_none name files :
  (forall f, In f files -> Name f <> name) -> matched name files = None.
Proof.
  intros H. unfold matched.
  rewrite <- (app_nil_r (rev files)), find_skip; [reflexivity|].
  intros f Hf. apply String.eqb_neq, H, in_rev, Hf.
Qed.

(** [matched] picks the last record of the list that carries the name. *)
Lemma matched_last name files f :
  matched name files = Some f <->
  exists l1 l2, files = l1 ++ f :: l2 /\ Name f = name /\
                forall g, In g l2 -> Name g <> name.
Proof.
  split.
  - revert f. induction files as [|g files IH] using rev_ind; intros f H.
    + discriminate.
    + rewrite matched_snoc in H. destruct (Name g =? name) eqn:E.
      * injection H as <-. exists files, []. repeat split.
        -- apply String.eqb_eq, E.
        -- intros ? [].
      * destruct (IH f H) as (l1 & l2 & -> & Hn & Hl2).
        exists l1, (l2 ++ [g]). repeat split.
        -- rewrite <- app_assoc. reflexivity.
        -- exact Hn.
        -- intros x Hx. apply in_app_or in Hx as [Hx | [<- | []]].
           ++ apply Hl2, Hx.
           ++ apply String.eqb_neq, E.
  - intros (l1 & l2 & -> & Hn & Hl2). unfold matched.
    rewrite rev_app_distr. cbn [rev]. rewrite <- app_assoc, find_skip.
    + cbn. rewrite (proj2 (String.eqb_eq _ _) Hn). reflexivity.
    + intros g Hg. apply String.eqb_neq, Hl2, in_rev, Hg.
Qed.

Lemma pickBeforeAfter_fold file files :
  fold_left (pickBeforeAfter file) files (None, None) =
    (matched (PreviousName file) files, matched (Name file) files).
Proof.
  induction files as [|g files IH] using rev_ind; [reflexivity|].
  rewrite fold_left_app. cbn [fold_left]. rewrite IH.
  unfold pickBeforeAfter. cbn [fst snd]. rewrite !matched_snoc. reflexivity.
Qed.

Lemma beforeAndAfterFileForRename_eq c file h :
  IsRename file = true ->
  beforeAndAfterFileForRename c file h =
    (match matched (PreviousName file) (statusFilesLoader_Load c h (mkOpts true)),
           matched (Name file) (statusFilesLoader_Load c h (mkOpts true)) with
     | Some beforeFile, Some afterFile =>
         if IsRename beforeFile || IsRename afterFile
         then inr (errors_New "Nested rename found")
         else inl (beforeFile, afterFile)
     | _, _ =>
         inr (errors_New "Could not find deleted file or new file for file rename")
     end,
     [StatusLoad (mkOpts true)]).
Proof.
  intros H. unfold beforeAndAfterFileForRename. rewrite H. cbn [negb].
  unfold bind, LoadStatusFiles, perform. rewrite pickBeforeAfter_fold.
  unfold ret. run_cases; reflexivity.
Qed.

(** The nested-rename guard: the halves handed back are not renames. *)
Lemma beforeAndAfterFileForRename_halves c file h beforeFile afterFile t :
  beforeAndAfterFileForRename c file h = (inl (beforeFile, afterFile), t) ->
  IsRename file = true /\ IsRename beforeFile = false /\ IsRename afterFile = false.
Proof.
  intros H. destruct (IsRename file) eqn:Hr.
  - rewrite (beforeAndAfterFileForRename_eq c file h Hr) in H.
    destruct (matched (PreviousName file) _) as [b|]; [|discriminate].
    destruct (matched (Name file) _) as [a|]; [|discriminate].
    destruct (IsRename b || IsRename a) eqn:E; [discriminate|].
    injection H as <- <- _. apply orb_false_elim in E. tauto.
  - unfold beforeAndAfterFileForRename in H. rewrite Hr in H. discriminate.
Qed.

Lemma DiscardAllFileChanges_plain_depth c file h stack :
  IsRename file = false ->
  DiscardAllFileChanges c (S stack) file h = DiscardAllFileChanges c 1 file h.
Proof. intros H. cbn [DiscardAllFileChanges]. rewrite H. reflexivity. Qed.

(** A record that is not a rename is discarded without any further call of
    [DiscardAllFileChanges], by mutations only. *)
Lemma DiscardAllFileChanges_plain c file h :
  IsRename file = false ->
  exists err t,
    DiscardAllFileChanges c 1 file h = (Finished err, t) /\
    forallb isMutation t = true /\ reloads t = [].
Proof.
  intros H. cbn [DiscardAllFileChanges]. rewrite H.
  unfold bind, RunGitCmdFromStr, DiscardUnstagedFileChanges, perform, ret.
  run_cases; eexists; eexists; repeat split; reflexivity.
Qed.

(** One call of [DiscardAllFileChanges] with room for [stack] nested calls. *)
Lemma DiscardAllFileChanges_unfold c stack file :
  DiscardAllFileChanges c (S stack) file =
    if IsRename file then
      (r <- beforeAndAfterFileForRename c file ;;
       match r with
       | inr err => ret (Finished (Some err))
       | inl (beforeFile, afterFile) =>
           o1 <- DiscardAllFileChanges c stack beforeFile ;;
           match o1 with
           | OutOfStack => ret OutOfStack
           | Finished (Some err) => ret (Finished (Some err))
           | Finished None =>
               o2 <- DiscardAllFileChanges c stack afterFile ;;
               match o2 with
               | OutOfStack => ret OutOfStack
               | Finished (Some err) => ret (Finished (Some err))
               | Finished None => ret (Finished None)
               end
           end
       end)%wt
    else DiscardAllFileChanges c 1 file.
Proof. cbn [DiscardAllFileChanges]. destruct (IsRename file); reflexivity. Qed.

(** The discard of a rename whose halves resolve: the reload, then the
    before half, then the after half unless the before half failed. *)
Lemma DiscardAllFileChanges_rename_eq c file h stack beforeFile afterFile :
  IsRename file = true ->
  beforeAndAfterFileForRename c file h =
    (inl (beforeFile, afterFile), [StatusLoad (mkOpts true)]) ->
  DiscardAllFileChanges c (S (S stack)) file h =
    match DiscardAllFileChanges c 1 beforeFile (h ++ [StatusLoad (mkOpts true)]) with
    | (Finished None, t1) =>
        (fst (DiscardAllFileChanges c 1 afterFile
                (h ++ StatusLoad (mkOpts true) :: t1)),
         StatusLoad (mkOpts true) :: t1 ++
           snd (DiscardAllFileChanges c 1 afterFile
                  (h ++ StatusLoad (mkOpts true) :: t1)))
    | (o, t1) => (o, StatusLoad (mkOpts true) :: t1)
    end.
Proof.
  intros Hr Hba.
  destruct (beforeAndAfterFileForRename_halves _ _ _ _ _ _ Hba) as (_ & Hb & Ha).
  rewrite DiscardAllFileChanges_unfold, Hr. unfold bind at 1. rewrite Hba.
  unfold bind at 1. rewrite (DiscardAllFileChanges_plain_depth c beforeFile _ stack Hb).
  destruct (DiscardAllFileChanges_plain c beforeFile (h ++ [StatusLoad (mkOpts true)]) Hb)
    as (e1 & t1 & E1 & _). rewrite E1.
  destruct e1 as [e1|].
  - unfold ret. cbn. rewrite app_nil_r. reflexivity.
  - unfold bind. rewrite <- app_assoc. cbn [app].
    rewrite (DiscardAllFileChanges_plain_depth c afterFile _ stack Ha).
    destruct (DiscardAllFileChanges_plain c afterFile
                (h ++ StatusLoad (mkOpts true) :: t1) Ha) as (e2 & t2 & E2 & _).
    rewrite E2. unfold ret. cbn. destruct e2; rewrite app_nil_r; reflexivity.
Qed.

Lemma DiscardAllFileChanges_rename_unresolved c file h stack e t :
  IsRename file = true ->
  beforeAndAfterFileForRename c file h = (inr e, t) ->
  DiscardAllFileChanges c (S stack) file h = (Finished (Some e), t).
Proof.
  intros Hr Hba. rewrite DiscardAllFileChanges_unfold, Hr.
  unfold bind. rewrite Hba. unfold ret. rewrite app_nil_r. reflexivity.
Qed.

Lemma beforeAndAfterFileForRename_trace c file h :
  IsRename file = true ->
  snd (beforeAndAfterFileForRename c file h) = [StatusLoad (mkOpts true)].
Proof. intros Hr. rewrite (beforeAndAfterFileForRename_eq c file h Hr). reflexivity. Qed.

(** The discard of a rename returns with one level of nesting: it reloads
    once, and everything after the reload is a mutation. *)
Lemma DiscardAllFileChanges_rename_run c file h stack :
  IsRename file = true ->
  exists err t,
    DiscardAllFileChanges c (S (S stack)) file h =
      (Finished err, StatusLoad (mkOpts true) :: t) /\
    forallb isMutation t = true /\ reloads t = [].
Proof.
  intros Hr.
  pose proof (beforeAndAfterFileForRename_trace c file h Hr) as Ht.
  destruct (beforeAndAfterFileForRename c file h) as [[[b a] | e] t0] eqn:Hba;
    cbn [snd] in Ht; subst t0.
  - destruct (beforeAndAfterFileForRename_halves _ _ _ _ _ _ Hba) as (_ & Hb & Ha).
    rewrite (DiscardAllFileChanges_rename_eq c file h stack b a Hr Hba).
    destruct (DiscardAllFileChanges_plain c b (h ++ [StatusLoad (mkOpts true)]) Hb)
      as (e1 & t1 & E1 & M1 & R1). rewrite E1.
    destruct e1 as [e1|].
    + exists (Some e1), t1. auto.
    + destruct (DiscardAllFileChanges_plain c a
                  (h ++ StatusLoad (mkOpts true) :: t1) Ha)
        as (e2 & t2 & E2 & M2 & R2). rewrite E2. cbn [fst snd].
      exists e2, (t1 ++ t2). repeat split.
      * rewrite forallb_app, M1, M2. reflexivity.
      * unfold reloads in *. rewrite filter_app, R1, R2. reflexivity.
  - rewrite (DiscardAllFileChanges_rename_unresolved c file h (S stack) e _ Hr Hba).
    exists (Some e), []. auto.
Qed.

(** Two frames are as good as any larger stack. *)
Lemma DiscardAllFileChanges_depth2 c file h stack :
  DiscardAllFileChanges c (S (S stack)) file h = DiscardAllFileChanges c 2 file h.
Proof.
  destruct (IsRename file) eqn:Hr.
  - pose proof (beforeAndAfterFileForRename_trace c file h Hr) as Ht.
    destruct (beforeAndAfterFileForRename c file h) as [[[b a] | e] t0] eqn:Hba;
      cbn [snd] in Ht; subst t0.
    + rewrite (DiscardAllFileChanges_rename_eq c file h stack b a Hr Hba).
      rewrite (DiscardAllFileChanges_rename_eq c file h 0 b a Hr Hba). reflexivity.
    + rewrite (DiscardAllFileChanges_rename_unresolved c file h (S stack) e _ Hr Hba).
      rewrite (DiscardAllFileChanges_rename_unresolved c file h 1 e _ Hr Hba).
      reflexivity.
  - rewrite (DiscardAllFileChanges_plain_depth c file h (S stack) Hr).
    rewrite (DiscardAllFileChanges_plain_depth c file h 1 Hr). reflexivity.
Qed.

(** C1: the discard of a rename record invokes the status reload exactly
    once, in no-renames mode; and when the reload has no record carrying the
    previous name, or none carrying the current name, or when the record
    matched for either name is itself a rename, the discard returns a rename
    resolution error and the reload is the only call it made: no mutation
    command was issued. *)
Theorem DiscardAllFileChanges_rename_reload
    (c : WorktreeMgr) (file : File) (h : History) (stack : nat) :
  IsRename file = true ->
  reloads (issued (DiscardAllFileChanges c (S (S stack)) file) h) =
    [StatusLoad (mkOpts true)] /\
  ((forall f, In f (statusFilesLoader_Load c h (mkOpts true)) ->
              Name f <> PreviousName file) \/
   (forall f, In f (statusFilesLoader_Load c h (mkOpts true)) ->
              Name f <> Name file) \/
   (exists f, matched (PreviousName file) (statusFilesLoader_Load c h (mkOpts true)) = Some f /\
              IsRename f = true) \/
   (exists f, matched (Name file) (statusFilesLoader_Load c h (mkOpts true)) = Some f /\
              IsRename f = true) ->
   exists e, RenameResolutionError e /\
     DiscardAllFileChanges c (S (S stack)) file h =
       (Finished (Some e), [StatusLoad (mkOpts true)])).
Proof.
  intros Hr. split.
  - destruct (DiscardAllFileChanges_rename_run c file h stack Hr) as (err & t & E & _ & R).
    unfold issued. rewrite E. cbn [snd]. unfold reloads in *. cbn [filter isStatusLoad].
    rewrite R. reflexivity.
  - intros H.
    assert (Hba : exists e, RenameResolutionError e /\
              beforeAndAfterFileForRename c file h = (inr e, [StatusLoad (mkOpts true)])).
    { rewrite (beforeAndAfterFileForRename_eq c file h Hr). unfold RenameResolutionError.
      destruct H as [H | [H | [(f & Hf & Hfr) | (f & Hf & Hfr)]]].
      - rewrite (matched_none _ _ H). eauto.
      - rewrite (matched_none _ _ H).
        destruct (matched (PreviousName file) _); eauto.
      - rewrite Hf, Hfr. destruct (matched (Name file) _); cbn [orb]; eauto.
      - rewrite Hf, Hfr. destruct (matched (PreviousName file) _); [|eauto].
        rewrite orb_true_r. eauto. }
    destruct Hba as (e & He & Hba). exists e. split; [exact He|].
    exact (DiscardAllFileChanges_rename_unresolved c file h (S stack) e _ Hr Hba).
Qed.

(** The wording of the specification: without a record of the previous name
    that is not a rename, or without such a record of the current name, the
    premise of the theorem above holds. *)
Lemma no_plain_record_unresolved name files :
  (forall f, In f files -> Name f = name -> IsRename f = true) ->
  (forall f, In f files -> Name f <> name) \/
  (exists f, matched name files = Some f /\ IsRename f = true).
Proof.
  intros H. destruct (matched name files) as [f|] eqn:E.
  - right. exists f. split; [reflexivity|].
    apply matched_last in E as (l1 & l2 & -> & Hn & _).
    apply H; [|exact Hn]. apply in_or_app. right. left. reflexivity.
  - left. intros f Hf Hn. unfold matched in E.
    pose proof (find_none _ _ E f (proj1 (in_rev files f) Hf)) as Hx.
    cbn in Hx. apply String.eqb_neq in Hx. exact (Hx Hn).
Qed.

Lemma DiscardAllFileChanges_rename_reload_witness :
  reloads (issued (DiscardAllFileChanges halfMissingMock 2 renamedFile) []) =
    [StatusLoad (mkOpts true)] /\
  exists e, RenameResolutionError e /\
    DiscardAllFileChanges halfMissingMock 2 renamedFile [] =
      (Finished (Some e), [StatusLoad (mkOpts true)]).
Proof.
  assert (Hr : IsRename renamedFile = true) by reflexivity.
  split.
  - exact (proj1 (DiscardAllFileChanges_rename_reload halfMissingMock renamedFile [] 0 Hr)).
  - apply (proj2 (DiscardAllFileChanges_rename_reload halfMissingMock renamedFile [] 0 Hr)).
    right. left. intros f [<- | []]. discriminate.
Defined.

(** C2: for a record that is not a rename and has short status AA, the
    discard issues the checkout of our version of the path; when that command
    fails its error is returned and nothing else is issued; when it succeeds
    the add of the path is issued next and the result is the add's error, or
    nil when the add succeeds; in no case is a third call made. *)
Theorem DiscardAllFileChanges_AA
    (c : WorktreeMgr) (file : File) (h : History) (stack : nat) :
  IsRename file = false ->
  ShortStatus file = "AA" ->
  (forall e,
     runGitCmdFromStr c h ("checkout --ours --  " ++ Quote c (Name file)) = Some e ->
     DiscardAllFileChanges c (S stack) file h =
       (Finished (Some e), [GitCmd ("checkout --ours --  " ++ Quote c (Name file))])) /\
  (runGitCmdFromStr c h ("checkout --ours --  " ++ Quote c (Name file)) = None ->
     DiscardAllFileChanges c (S stack) file h =
       (Finished (runGitCmdFromStr c
                    (h ++ [GitCmd ("checkout --ours --  " ++ Quote c (Name file))])
                    ("add " ++ Quote c (Name file))),
        [GitCmd ("checkout --ours --  " ++ Quote c (Name file));
         GitCmd ("add " ++ Quote c (Name file))])) /\
  length (issued (DiscardAllFileChanges c (S stack) file) h) <= 2.
Proof.
  intros Hr Hs. unfold issued.
  rewrite (DiscardAllFileChanges_plain_depth c file h stack Hr).
  cbn [DiscardAllFileChanges]. rewrite Hr, Hs. cbn [String.eqb Ascii.eqb Bool.eqb].
  unfold bind, RunGitCmdFromStr, perform, ret.
  destruct (runGitCmdFromStr c h _) as [e|].
  - repeat split; [intros ? [= <-]; reflexivity | discriminate | cbn; lia].
  - repeat split; [discriminate | | run_cases; cbn; lia].
    intros _. destruct (runGitCmdFromStr c _ _); reflexivity.
Qed.

Lemma DiscardAllFileChanges_AA_witness :
  DiscardAllFileChanges addFailsMock 1 conflictedFile [] =
    (Finished (Some (ExecutionError "add 'both.txt'")),
     [GitCmd "checkout --ours --  'both.txt'"; GitCmd "add 'both.txt'"]).
Proof.
  exact (proj1 (proj2 (DiscardAllFileChanges_AA addFailsMock conflictedFile [] 0
                         eq_refl eq_refl)) eq_refl).
Defined.

(** C4: for a record that is not a rename, has short status DD or AU, and
    has staged changes or merge conflicts, the discard issues the index reset
    for the path and nothing else: its result is the reset's, and no checkout,
    file removal or other call follows. *)
Theorem DiscardAllFileChanges_DD_AU
    (c : WorktreeMgr) (file : File) (h : History) (stack : nat) :
  IsRename file = false ->
  ShortStatus file = "DD" \/ ShortStatus file = "AU" ->
  HasStagedChanges file = true \/ HasMergeConflicts file = true ->
  DiscardAllFileChanges c (S stack) file h =
    (Finished (runGitCmdFromStr c h ("reset -- " ++ Quote c (Name file))),
     [GitCmd ("reset -- " ++ Quote c (Name file))]).
Proof.
  intros Hr Hs Hc.
  rewrite (DiscardAllFileChanges_plain_depth c file h stack Hr).
  cbn [DiscardAllFileChanges]. rewrite Hr.
  assert (Hor : HasStagedChanges file || HasMergeConflicts file = true)
    by (destruct Hc as [-> | ->]; [reflexivity | apply orb_true_r]).
  rewrite Hor.
  destruct Hs as [-> | ->]; cbn [String.eqb Ascii.eqb Bool.eqb orb];
    unfold bind, RunGitCmdFromStr, perform, ret;
    destruct (runGitCmdFromStr c h _); reflexivity.
Qed.

Lemma DiscardAllFileChanges_DD_AU_witness :
  DiscardAllFileChanges quietMgr 1 bothDeletedFile [] =
    (Finished None, [GitCmd "reset -- 'gone.txt'"]).
Proof.
  exact (DiscardAllFileChanges_DD_AU quietMgr bothDeletedFile [] 0
           eq_refl (or_introl eq_refl) (or_intror eq_refl)).
Defined.

(** C3 as stated fails: a record that is not a rename, with Added set, no
    staged changes and a short status other than AA and DU, can still be in
    conflict, and then the index reset, a git command, is issued before the
    file is removed; and with short status DD nothing is removed at all. *)
Lemma DiscardAllFileChanges_added_unstaged_counterexample :
  (IsRename addedByThemFile = false /\
   Added addedByThemFile = true /\
   HasStagedChanges addedByThemFile = false /\
   ShortStatus addedByThemFile <> "AA" /\
   ShortStatus addedByThemFile <> "DU" /\
   DiscardAllFileChanges quietMgr 1 addedByThemFile [] =
     (Finished None, [GitCmd "reset -- 'theirs.txt'"; RemoveFile "theirs.txt"]) /\
   gitCmds (issued (DiscardAllFileChanges quietMgr 1 addedByThemFile) []) <> []) /\
  (IsRename addedBothDeletedFile = false /\
   Added addedBothDeletedFile = true /\
   HasStagedChanges addedBothDeletedFile = false /\
   ShortStatus addedBothDeletedFile <> "AA" /\
   ShortStatus addedBothDeletedFile <> "DU" /\
   DiscardAllFileChanges quietMgr 1 addedBothDeletedFile [] = (Finished None, [])).
Proof. repeat split; try reflexivity; discriminate. Qed.

(** C3, amended: for a record that is not a rename, with Added set, no
    staged changes and a short status other than AA and DU: when the record
    has no merge conflicts and its short status is neither DD nor AU, the
    discard removes the file through the filesystem collaborator and issues
    no git command, that removal being its only call; when the record has
    merge conflicts (short status neither DD nor AU), the index reset for the
    path is issued first, and the file is removed only after the reset
    succeeded; with short status DD or AU no file is removed. *)
Theorem DiscardAllFileChanges_added_unstaged
    (c : WorktreeMgr) (file : File) (h : History) (stack : nat) :
  IsRename file = false ->
  Added file = true ->
  HasStagedChanges file = false ->
  ShortStatus file <> "AA" ->
  ShortStatus file <> "DU" ->
  (HasMergeConflicts file = false ->
   ShortStatus file <> "DD" -> ShortStatus file <> "AU" ->
   DiscardAllFileChanges c (S stack) file h =
     (Finished (os_RemoveFile c h (Name file)), [RemoveFile (Name file)]) /\
   gitCmds (issued (DiscardAllFileChanges c (S stack) file) h) = []) /\
  (HasMergeConflicts file = true ->
   ShortStatus file <> "DD" -> ShortStatus file <> "AU" ->
   (forall e,
      runGitCmdFromStr c h ("reset -- " ++ Quote c (Name file)) = Some e ->
      DiscardAllFileChanges c (S stack) file h =
        (Finished (Some e), [GitCmd ("reset -- " ++ Quote c (Name file))])) /\
   (runGitCmdFromStr c h ("reset -- " ++ Quote c (Name file)) = None ->
      DiscardAllFileChanges c (S stack) file h =
        (Finished (os_RemoveFile c
                     (h ++ [GitCmd ("reset -- " ++ Quote c (Name file))]) (Name file)),
         [GitCmd ("reset -- " ++ Quote c (Name file)); RemoveFile (Name file)]))) /\
  (ShortStatus file = "DD" \/ ShortStatus file = "AU" ->
   filter isRemoveFile (issued (DiscardAllFileChanges c (S stack) file) h) = []).
Proof.
  intros Hr Ha Hst HAA HDU. unfold issued.
  rewrite (DiscardAllFileChanges_plain_depth c file h stack Hr).
  cbn [DiscardAllFileChanges]. rewrite Hr, Ha, Hst.
  rewrite (proj2 (String.eqb_neq _ _) HAA), (proj2 (String.eqb_neq _ _) HDU).
  cbn [orb]. unfold bind, RunGitCmdFromStr, perform, ret.
  split; [|split].
  - intros Hm HDD HAU.
    rewrite Hm, (proj2 (String.eqb_neq _ _) HDD), (proj2 (String.eqb_neq _ _) HAU).
    cbn [orb app]. rewrite app_nil_r. split; reflexivity.
  - intros Hm HDD HAU.
    rewrite Hm, (proj2 (String.eqb_neq _ _) HDD), (proj2 (String.eqb_neq _ _) HAU).
    cbn [orb]. destruct (runGitCmdFromStr c h _) as [e|]; split;
      try discriminate; try reflexivity.
    intros e' [= <-]. reflexivity.
  - intros [Hs | Hs]; rewrite Hs; cbn [String.eqb Ascii.eqb Bool.eqb orb];
      run_cases; reflexivity.
Qed.

Lemma DiscardAllFileChanges_added_unstaged_witness :
  DiscardAllFileChanges quietMgr 1 untrackedNewFile [] =
    (Finished None, [RemoveFile "new.txt"]) /\
  gitCmds (issued (DiscardAllFileChanges quietMgr 1 untrackedNewFile) []) = [].
Proof.
  apply (proj1 (DiscardAllFileChanges_added_unstaged quietMgr untrackedNewFile [] 0
                  eq_refl eq_refl eq_refl
                  ltac:(discriminate) ltac:(discriminate)));
    [reflexivity | discriminate | discriminate].
Defined.

(** C9: [DiscardAllFileChanges] returns on every input with one level of
    nesting: with room for two frames (the call and one nested call) it
    finishes, with the same result and calls as on any larger stack; on a
    record that is not a rename one frame is enough, so only a rename leads
    to a nested call; and the two records a rename recurses on are not
    renames, as the nested-rename guard lets no rename through. *)
Theorem DiscardAllFileChanges_terminates
    (c : WorktreeMgr) (file : File) (h : History) :
  (exists err t, forall stack, 2 <= stack ->
     DiscardAllFileChanges c stack file h = (Finished err, t)) /\
  (forall g h', IsRename g = false ->
     exists err t, forall stack, 1 <= stack ->
       DiscardAllFileChanges c stack g h' = (Finished err, t)) /\
  (forall beforeFile afterFile t,
     beforeAndAfterFileForRename c file h = (inl (beforeFile, afterFile), t) ->
     IsRename beforeFile = false /\ IsRename afterFile = false).
Proof.
  assert (Hplain : forall g h', IsRename g = false ->
     exists err t, forall stack, 1 <= stack ->
       DiscardAllFileChanges c stack g h' = (Finished err, t)).
  { intros g h' Hg.
    destruct (DiscardAllFileChanges_plain c g h' Hg) as (err & t & E & _).
    exists err, t. intros [|stack] Hs; [lia|].
    rewrite (DiscardAllFileChanges_plain_depth c g h' stack Hg). exact E. }
  split; [|split].
  - destruct (IsRename file) eqn:Hr.
    + destruct (DiscardAllFileChanges_rename_run c file h 0 Hr) as (err & t & E & _).
      exists err, (StatusLoad (mkOpts true) :: t).
      intros [|[|stack]] Hs; try lia.
      rewrite DiscardAllFileChanges_depth2. exact E.
    + destruct (Hplain file h Hr) as (err & t & E).
      exists err, t. intros stack Hs. apply E. lia.
  - exact Hplain.
  - intros b a t Hba.
    destruct (beforeAndAfterFileForRename_halves _ _ _ _ _ _ Hba) as (_ & Hb & Ha).
    split; assumption.
Qed.

(** One frame is not enough for a rename that resolves: the nested call is
    really made. *)
Example DiscardAllFileChanges_rename_needs_two_frames :
  DiscardAllFileChanges renameMock 1 renamedFile [] =
    (OutOfStack, [StatusLoad (mkOpts true)]).
Proof. reflexivity. Qed.

(** The discard of the rename: the reload, the discard of the deleted half
    (reset, checkout), then that of the added half (reset, file removal). *)
Example DiscardAllFileChanges_rename_run_example :
  DiscardAllFileChanges renameMock 2 renamedFile [] =
    (Finished None,
     [StatusLoad (mkOpts true);
      GitCmd "reset -- 'old.txt'"; GitCmd "checkout -- 'old.txt'";
      GitCmd "reset -- 'new.txt'"; RemoveFile "new.txt"]).
Proof. reflexivity. Qed.

(** The nested-rename guard at work: no mutation is issued. *)
Example DiscardAllFileChanges_nested_rename :
  DiscardAllFileChanges nestedRenameMock 2 renamedFile [] =
    (Finished (Some (errors_New "Nested rename found")), [StatusLoad (mkOpts true)]).
Proof. reflexivity. Qed.

(** ** Resolving the editor *)

Lemma firstNonEmpty_step s rest h :
  firstNonEmpty (s :: rest) h =
    if snd s h =? "" then
      (fst (firstNonEmpty rest (h ++ [fst s])),
       fst s :: snd (firstNonEmpty rest (h ++ [fst s])))
    else (snd s h, [fst s]).
Proof.
  cbn [firstNonEmpty]. unfold bind, perform at 1.
  destruct (snd s h =? ""); [|reflexivity].
  destruct (firstNonEmpty rest (h ++ [fst s])); reflexivity.
Qed.

Lemma allEmptyBefore_head k s rest h :
  allEmptyBefore (S k) (s :: rest) h -> snd s h = "".
Proof.
  intros H. specialize (H 0 s (Nat.lt_0_succ k) eq_refl).
  cbn [firstn map] in H. rewrite app_nil_r in H. exact H.
Qed.

Lemma allEmptyBefore_tail k s rest h :
  allEmptyBefore (S k) (s :: rest) h -> allEmptyBefore k rest (h ++ [fst s]).
Proof.
  intros H i x Hi Hx.
  specialize (H (S i) x (proj1 (Nat.succ_lt_mono i k) Hi) Hx).
  cbn [firstn map] in H. rewrite <- app_assoc. exact H.
Qed.

Lemma allEmptyBefore_cons k s rest h :
  snd s h = "" -> allEmptyBefore k rest (h ++ [fst s]) ->
  allEmptyBefore (S k) (s :: rest) h.
Proof.
  intros Hs H [|i] x Hi Hx.
  - injection Hx as <-. cbn [firstn map]. rewrite app_nil_r. exact Hs.
  - cbn [firstn map]. cbn [nth_error] in Hx.
    specialize (H i x (proj2 (Nat.succ_lt_mono i k) Hi) Hx).
    rewrite <- app_assoc in H. exact H.
Qed.

Lemma firstNonEmpty_found sources : forall h k s,
  nth_error sources k = Some s ->
  allEmptyBefore k sources h ->
  snd s (h ++ map fst (firstn k sources)) <> "" ->
  firstNonEmpty sources h =
    (snd s (h ++ map fst (firstn k sources)), map fst (firstn (S k) sources)).
Proof.
  induction sources as [|x rest IH]; intros h k s Hk Hbefore Hs.
  - destruct k; discriminate.
  - rewrite firstNonEmpty_step. destruct k as [|k].
    + injection Hk as ->. cbn [firstn map] in *. rewrite app_nil_r in *.
      rewrite (proj2 (String.eqb_neq _ _) Hs). reflexivity.
    + rewrite (allEmptyBefore_head _ _ _ _ Hbefore). cbn [String.eqb].
      cbn [nth_error] in Hk. cbn [firstn map] in Hs |- *.
      rewrite (IH (h ++ [fst x]) k s Hk (allEmptyBefore_tail _ _ _ _ Hbefore));
        rewrite <- app_assoc; [reflexivity | exact Hs].
Qed.

Lemma firstNonEmpty_none sources : forall h,
  allEmptyBefore (length sources) sources h ->
  firstNonEmpty sources h = ("", map fst sources).
Proof.
  induction sources as [|x rest IH]; intros h H; [reflexivity|].
  rewrite firstNonEmpty_step, (allEmptyBefore_head _ _ _ _ H). cbn [String.eqb].
  rewrite (IH _ (allEmptyBefore_tail _ _ _ _ H)). reflexivity.
Qed.

(** The chain yields the empty string only when every source did. *)
Lemma firstNonEmpty_empty sources : forall h,
  fst (firstNonEmpty sources h) = "" ->
  allEmptyBefore (length sources) sources h.
Proof.
  induction sources as [|x rest IH]; intros h H.
  - intros i s Hi. inversion Hi.
  - rewrite firstNonEmpty_step in H. destruct (snd x h =? "") eqn:E.
    + cbn [fst] in H. apply String.eqb_eq in E.
      apply allEmptyBefore_cons; [exact E|]. apply IH, H.
    + cbn [fst] in H. apply String.eqb_neq in E. contradiction.
Qed.

(** [EditFileCmdObj] follows the specification's chain. *)
Lemma EditFileCmdObj_chain c filename h :
  EditFileCmdObj c filename h =
    (if fst (firstNonEmpty (editorSources c) h) =? ""
     then inr (errors_New
            "No editor defined in config file, $GIT_EDITOR, $VISUAL, $EDITOR, or git config")
     else inl (BuildShellCmdObj
                 (fst (firstNonEmpty (editorSources c) h) ++ " " ++ Quote c filename)),
     snd (firstNonEmpty (editorSources c) h)).
Proof.
  unfold EditFileCmdObj, editorSources.
  rewrite !firstNonEmpty_step. cbn [fst snd firstNonEmpty].
  unfold bind, orElse, Run, perform, ret.
  destruct (run c _ (NewCmdObjFromStr "which vi")) eqn:Hvi;
    repeat match goal with
           | H : run ?c ?h ?o = _ |- context [run ?c ?h ?o] =>
               rewrite H; cbn [fst snd app String.eqb]
           | H : (?s =? "")%string = _ |- context [if (?s =? "")%string then _ else _] =>
               rewrite H; cbn [fst snd app String.eqb]
           | |- context [if (?s =? "")%string then _ else _] =>
               destruct (s =? "")%string eqn:?; cbn [fst snd app String.eqb]
           end;
    reflexivity.
Qed.

(** C5: [EditFileCmdObj] consults the user-configured edit command, the
    core.editor setting, GIT_EDITOR, VISUAL, EDITOR and the which-vi probe in
    this order; when a source yields a non-empty candidate after all earlier
    ones yielded the empty string, the result is the shell command made of
    that candidate and the quoted file name, and the calls made are those of
    the sources up to and including this one, none of a later source; the
    result is the no-editor error exactly when all six sources yielded
    nothing, all six having been consulted. *)
Theorem EditFileCmdObj_first_nonempty
    (c : WorktreeMgr) (filename : string) (h : History) :
  map fst (editorSources c) =
    [GetUserConfig; GetConfigValue "core.editor"; Getenv "GIT_EDITOR";
     Getenv "VISUAL"; Getenv "EDITOR"; RunCmdObj (NewCmdObjFromStr "which vi")] /\
  (forall k s,
     nth_error (editorSources c) k = Some s ->
     allEmptyBefore k (editorSources c) h ->
     snd s (h ++ map fst (firstn k (editorSources c))) <> "" ->
     EditFileCmdObj c filename h =
       (inl (BuildShellCmdObj
               (snd s (h ++ map fst (firstn k (editorSources c))) ++ " " ++
                Quote c filename)),
        map fst (firstn (S k) (editorSources c)))) /\
  (allEmptyBefore 6 (editorSources c) h ->
     exists e, NoEditorConfiguredError e /\
       EditFileCmdObj c filename h = (inr e, map fst (editorSources c))) /\
  ((exists e, NoEditorConfiguredError e /\
      result (EditFileCmdObj c filename) h = inr e) <->
   allEmptyBefore 6 (editorSources c) h).
Proof.
  assert (Hnone : allEmptyBefore 6 (editorSources c) h ->
     exists e, NoEditorConfiguredError e /\
       EditFileCmdObj c filename h = (inr e, map fst (editorSources c))).
  { intros H. eexists. split; [reflexivity|].
    rewrite EditFileCmdObj_chain, (firstNonEmpty_none (editorSources c) h H).
    reflexivity. }
  split; [reflexivity|]. split; [|split; [exact Hnone|split]].
  - intros k s Hk Hbefore Hs.
    rewrite EditFileCmdObj_chain.
    rewrite (firstNonEmpty_found (editorSources c) h k s Hk Hbefore Hs).
    cbn [fst snd]. rewrite (proj2 (String.eqb_neq _ _) Hs). reflexivity.
  - intros (e & _ & He). unfold result in He. rewrite EditFileCmdObj_chain in He.
    cbn [fst] in He.
    destruct (fst (firstNonEmpty (editorSources c) h) =? "") eqn:E; [|discriminate].
    apply String.eqb_eq in E. exact (firstNonEmpty_empty (editorSources c) h E).
  - intros H. destruct (Hnone H) as (e & He & E). exists e. split; [exact He|].
    unfold result. rewrite E. reflexivity.
Qed.

Lemma EditFileCmdObj_first_nonempty_witness :
  EditFileCmdObj editorMock "notes.txt" [] =
    (inl (BuildShellCmdObj "nano 'notes.txt'"),
     [GetUserConfig; GetConfigValue "core.editor"; Getenv "GIT_EDITOR"; Getenv "VISUAL"]).
Proof.
  apply (proj1 (proj2 (EditFileCmdObj_first_nonempty editorMock "notes.txt" []))
           3 (Getenv "VISUAL", fun h => os_Getenv editorMock h "VISUAL") eq_refl).
  - intros [|[|[|i]]] s Hi Hs; try lia; injection Hs as <-; reflexivity.
  - discriminate.
Defined.

Example EditFileCmdObj_no_editor :
  EditFileCmdObj noEditorMock "notes.txt" [] =
    (inr (errors_New
       "No editor defined in config file, $GIT_EDITOR, $VISUAL, $EDITOR, or git config"),
     [GetUserConfig; GetConfigValue "core.editor"; Getenv "GIT_EDITOR";
      Getenv "VISUAL"; Getenv "EDITOR"; RunCmdObj (NewCmdObjFromStr "which vi")]).
Proof. reflexivity. Qed.

(** With nothing configured but vi on the search path, vi is the editor. *)
Example EditFileCmdObj_vi_probe :
  EditFileCmdObj quietMgr "notes.txt" [] =
    (inl (BuildShellCmdObj "vi 'notes.txt'"),
     [GetUserConfig; GetConfigValue "core.editor"; Getenv "GIT_EDITOR";
      Getenv "VISUAL"; Getenv "EDITOR"; RunCmdObj (NewCmdObjFromStr "which vi")]).
Proof. reflexivity. Qed.

(** ** Reset and clean *)

(** C6: when the submodule manager reports no configured submodule,
    [ResetAndClean] never calls stash-and-reset: after the query it issues the
    hard reset to HEAD and, only if that succeeded, the removal of untracked
    files; with one or more configured submodules it calls stash-and-reset
    first, and when that fails it returns the error with neither the hard reset
    nor the removal issued; a failure of the query, of the hard reset or of any
    other step ends the sequence with that step's error. *)
Theorem ResetAndClean_sequence (c : WorktreeMgr) (h : History) :
  (submodulesMgr_GetConfigs c h = ([], None) ->
   filter isStashAndReset (issued (ResetAndClean c) h) = [] /\
   (forall e,
      branchesMgr_ResetToRef c (h ++ [GetConfigs]) "HEAD" HARD = Some e ->
      ResetAndClean c h = (Some e, [GetConfigs; ResetToRef "HEAD" HARD])) /\
   (branchesMgr_ResetToRef c (h ++ [GetConfigs]) "HEAD" HARD = None ->
      ResetAndClean c h =
        (runGitCmdFromStr c (h ++ [GetConfigs; ResetToRef "HEAD" HARD]) "clean -fd",
         [GetConfigs; ResetToRef "HEAD" HARD; GitCmd "clean -fd"]))) /\
  (forall configs,
     configs <> [] ->
     submodulesMgr_GetConfigs c h = (configs, None) ->
     (forall e,
        submodulesMgr_StashAndReset c (h ++ [GetConfigs]) configs = Some e ->
        ResetAndClean c h = (Some e, [GetConfigs; StashAndReset configs])) /\
     (submodulesMgr_StashAndReset c (h ++ [GetConfigs]) configs = None ->
        (forall e,
           branchesMgr_ResetToRef c (h ++ [GetConfigs; StashAndReset configs])
             "HEAD" HARD = Some e ->
           ResetAndClean c h =
             (Some e, [GetConfigs; StashAndReset configs; ResetToRef "HEAD" HARD])) /\
        (branchesMgr_ResetToRef c (h ++ [GetConfigs; StashAndReset configs])
           "HEAD" HARD = None ->
           ResetAndClean c h =
             (runGitCmdFromStr c
                (h ++ [GetConfigs; StashAndReset configs; ResetToRef "HEAD" HARD])
                "clean -fd",
              [GetConfigs; StashAndReset configs; ResetToRef "HEAD" HARD;
               GitCmd "clean -fd"])))) /\
  (forall configs e,
     submodulesMgr_GetConfigs c h = (configs, Some e) ->
     ResetAndClean c h = (Some e, [GetConfigs])).
Proof.
  unfold issued, ResetAndClean, RemoveUntrackedFiles, RunGitCmdFromStr.
  unfold bind, perform, ret.
  split; [|split].
  - intros Hq. rewrite Hq. cbn [length Nat.ltb Nat.leb app fst snd].
    rewrite app_nil_r.
    destruct (branchesMgr_ResetToRef c (h ++ [GetConfigs]) "HEAD" HARD) as [e|];
      cbn [app fst snd]; rewrite <- ?app_assoc; cbn [app].
    + repeat split; [intros ? [= <-]; reflexivity | discriminate].
    + repeat split; discriminate.
  - intros configs Hne Hq. rewrite Hq.
    destruct configs as [|cfg configs]; [congruence|].
    cbn [length Nat.ltb Nat.leb].
    destruct (submodulesMgr_StashAndReset c (h ++ [GetConfigs]) (cfg :: configs)) as [e|];
      cbn [app fst snd]; rewrite <- ?app_assoc; cbn [app].
    + split; [intros ? [= <-]; reflexivity | discriminate].
    + split; [discriminate|]. intros _.
      destruct (branchesMgr_ResetToRef c _ "HEAD" HARD) as [e|];
        cbn [app fst snd]; rewrite <- ?app_assoc; cbn [app].
      * split; [intros ? [= <-]; reflexivity | discriminate].
      * split; [discriminate | reflexivity].
  - intros configs e Hq. rewrite Hq. reflexivity.
Qed.

Lemma ResetAndClean_sequence_witness :
  ResetAndClean stashFailsMock [] =
    (Some (ExecutionError "stash"), [GetConfigs; StashAndReset [oneSubmodule]]) /\
  ResetAndClean quietMgr [] =
    (None, [GetConfigs; ResetToRef "HEAD" HARD; GitCmd "clean -fd"]).
Proof.
  split.
  - apply (proj1 (proj2 (ResetAndClean_sequence stashFailsMock [])) [oneSubmodule]);
      [discriminate | reflexivity | reflexivity].
  - apply (proj1 (ResetAndClean_sequence quietMgr [])); reflexivity.
Defined.

(** ** Discarding the unstaged changes of a directory *)

Lemma untrackedPaths_cover node leaf f :
  filetree.Under node leaf ->
  filetree.File leaf = Some f ->
  GetIsTracked f = false ->
  In (filetree.GetPath leaf) (untrackedPaths node).
Proof.
  unfold untrackedPaths. intros HU Hf Ht.
  induction HU as [n | cs f' p child n Hin HU IH].
  - destruct n as [cs f' p]. cbn in Hf. subst f'.
    cbn. unfold isUntrackedFile. cbn. rewrite Ht. cbn. left. reflexivity.
  - cbn [filetree.GetPathsMatching]. apply in_or_app. right.
    apply in_flat_map. exists child. split; [exact Hin | exact (IH Hf)].
Qed.

Lemma DiscardUnstagedDirChanges_eq c node h :
  DiscardUnstagedDirChanges c node h =
    match removeUntrackedDirFiles c node h with
    | (Some e, t) => (Some e, t)
    | (None, t) =>
        (runGitCmdFromStr c (h ++ t) ("checkout -- " ++ Quote c (filetree.GetPath node)),
         t ++ [GitCmd ("checkout -- " ++ Quote c (filetree.GetPath node))])
    end.
Proof.
  unfold DiscardUnstagedDirChanges, bind.
  destruct (removeUntrackedDirFiles c node h) as [[e|] t].
  - unfold ret. rewrite app_nil_r. reflexivity.
  - unfold RunGitCmdFromStr, perform, ret.
    destruct (runGitCmdFromStr c (h ++ t) _); reflexivity.
Qed.

Lemma gitCmds_removals (paths : list string) : gitCmds (map OsRemove paths) = [].
Proof. induction paths as [|p paths IH]; [reflexivity | exact IH]. Qed.

(** C8: [DiscardUnstagedDirChanges] removes the untracked files under the
    node, every one of them being in the list it walks, and issues the
    checkout of the directory path once, after the last removal, when all
    removals succeeded; when a removal fails, that error is returned, the calls
    made are the removals up to the failing one, and no checkout is issued. *)
Theorem DiscardUnstagedDirChanges_removals_first
    (c : WorktreeMgr) (node : filetree.FileNode) (h : History) :
  (forall leaf f,
     filetree.Under node leaf -> filetree.File leaf = Some f ->
     GetIsTracked f = false ->
     In (filetree.GetPath leaf) (untrackedPaths node)) /\
  ((allSucceedBefore OsRemove (os_Remove c)
      (length (untrackedPaths node)) (untrackedPaths node) h /\
    DiscardUnstagedDirChanges c node h =
      (runGitCmdFromStr c (h ++ map OsRemove (untrackedPaths node))
         ("checkout -- " ++ Quote c (filetree.GetPath node)),
       map OsRemove (untrackedPaths node) ++
         [GitCmd ("checkout -- " ++ Quote c (filetree.GetPath node))]))
   \/
   (exists k p e,
      nth_error (untrackedPaths node) k = Some p /\
      allSucceedBefore OsRemove (os_Remove c) k (untrackedPaths node) h /\
      os_Remove c (h ++ map OsRemove (firstn k (untrackedPaths node))) p = Some e /\
      DiscardUnstagedDirChanges c node h =
        (Some e, map OsRemove (firstn (S k) (untrackedPaths node))) /\
      gitCmds (issued (DiscardUnstagedDirChanges c node) h) = [])).
Proof.
  split; [intros leaf f; apply untrackedPaths_cover|].
  rewrite DiscardUnstagedDirChanges_eq. unfold issued.
  rewrite DiscardUnstagedDirChanges_eq.
  change (removeUntrackedDirFiles c node h) with
    (rangeUntilError (fun p => perform (OsRemove p) (fun h' => os_Remove c h' p))
       (untrackedPaths node) h).
  destruct (range_cases OsRemove (os_Remove c) (untrackedPaths node) h)
    as [[Hall E] | (k & p & e & Hk & Hok & He & E)]; rewrite E.
  - left. split; [exact Hall | reflexivity].
  - right. exists k, p, e.
    split; [exact Hk|]. split; [exact Hok|]. split; [exact He|].
    split; [reflexivity|].
    cbn [snd]. apply gitCmds_removals.
Qed.

Example DiscardUnstagedDirChanges_run :
  DiscardUnstagedDirChanges quietMgr srcDir [] =
    (None,
     [OsRemove "src/tmp.log"; OsRemove "src/gen/out.bin"; GitCmd "checkout -- 'src'"]).
Proof. reflexivity. Qed.

Example DiscardUnstagedDirChanges_removal_fails :
  DiscardUnstagedDirChanges removeFailsMock srcDir [] =
    (Some (FilesystemError "permission denied"),
     [OsRemove "src/tmp.log"; OsRemove "src/gen/out.bin"]).
Proof. reflexivity. Qed.

(** ** Further properties of unstaging and of the discard of one file *)

(** X1: with reset semantics [UnStageFile] issues one reset-to-HEAD command
    per path, in list order: either every command succeeds, all of them are
    issued and nil is returned, or the loop stops at the first command that
    fails, returns its error, and issues nothing for the paths after it. *)
Theorem UnStageFile_reset_in_order
    (c : WorktreeMgr) (paths : list string) (h : History) :
  (allSucceedBefore (resetHead c) (resetHeadAnswer c) (length paths) paths h /\
   UnStageFile c paths true h = (None, map (resetHead c) paths))
  \/
  (exists k p e,
     nth_error paths k = Some p /\
     allSucceedBefore (resetHead c) (resetHeadAnswer c) k paths h /\
     resetHeadAnswer c (h ++ map (resetHead c) (firstn k paths)) p = Some e /\
     UnStageFile c paths true h = (Some e, map (resetHead c) (firstn (S k) paths))).
Proof.
  exact (range_cases (resetHead c) (resetHeadAnswer c) paths h).
Qed.

(** X2: a record that is not a rename and has short status DU is discarded
    by one git rm of the quoted path, whatever its flags; the result is that
    command's. *)
Theorem DiscardAllFileChanges_DU
    (c : WorktreeMgr) (file : File) (h : History) (stack : nat) :
  IsRename file = false ->
  ShortStatus file = "DU" ->
  DiscardAllFileChanges c (S stack) file h =
    (Finished (runGitCmdFromStr c h ("rm " ++ Quote c (Name file))),
     [GitCmd ("rm " ++ Quote c (Name file))]).
Proof.
  intros Hr Hs.
  rewrite (DiscardAllFileChanges_plain_depth c file h stack Hr).
  cbn [DiscardAllFileChanges]. rewrite Hr, Hs. cbn [String.eqb Ascii.eqb Bool.eqb].
  unfold bind, RunGitCmdFromStr, perform, ret. reflexivity.
Qed.

Lemma DiscardAllFileChanges_DU_witness :
  DiscardAllFileChanges quietMgr 1 deletedByUsFile [] =
    (Finished None, [GitCmd "rm 'ours.txt'"]).
Proof.
  exact (DiscardAllFileChanges_DU quietMgr deletedByUsFile [] 0 eq_refl eq_refl).
Defined.

(** X3: for a record that is not a rename, is not flagged as added and has a
    short status other than AA, DU, DD and AU, discarding all changes is
    discarding the unstaged changes, after an index reset when the record has
    staged changes or merge conflicts: without either, the two operations
    coincide; with one of them, the reset is issued first and
    [DiscardUnstagedFileChanges] runs only when the reset succeeded. *)
Theorem DiscardAllFileChanges_tracked
    (c : WorktreeMgr) (file : File) (h : History) (stack : nat) :
  IsRename file = false ->
  Added file = false ->
  ShortStatus file <> "AA" -> ShortStatus file <> "DU" ->
  ShortStatus file <> "DD" -> ShortStatus file <> "AU" ->
  (HasStagedChanges file || HasMergeConflicts file = false ->
   DiscardAllFileChanges c (S stack) file h =
     (Finished (result (DiscardUnstagedFileChanges c file) h),
      issued (DiscardUnstagedFileChanges c file) h)) /\
  (HasStagedChanges file || HasMergeConflicts file = true ->
   (forall e,
      runGitCmdFromStr c h ("reset -- " ++ Quote c (Name file)) = Some e ->
      DiscardAllFileChanges c (S stack) file h =
        (Finished (Some e), [GitCmd ("reset -- " ++ Quote c (Name file))])) /\
   (runGitCmdFromStr c h ("reset -- " ++ Quote c (Name file)) = None ->
      DiscardAllFileChanges c (S stack) file h =
        (Finished (result (DiscardUnstagedFileChanges c file)
                     (h ++ [GitCmd ("reset -- " ++ Quote c (Name file))])),
         GitCmd ("reset -- " ++ Quote c (Name file)) ::
           issued (DiscardUnstagedFileChanges c file)
             (h ++ [GitCmd ("reset -- " ++ Quote c (Name file))])))).
Proof.
  intros Hr Ha HAA HDU HDD HAU.
  rewrite (DiscardAllFileChanges_plain_depth c file h stack Hr).
  cbn [DiscardAllFileChanges]. rewrite Hr, Ha.
  rewrite (proj2 (String.eqb_neq _ _) HAA), (proj2 (String.eqb_neq _ _) HDU).
  rewrite (proj2 (String.eqb_neq _ _) HDD), (proj2 (String.eqb_neq _ _) HAU).
  cbn [orb]. unfold result, issued, DiscardUnstagedFileChanges.
  unfold bind, RunGitCmdFromStr, perform, ret.
  split; intros Hor; rewrite Hor.
  - cbn [app fst snd]. rewrite app_nil_r. reflexivity.
  - destruct (runGitCmdFromStr c h _) as [e|]; split;
      try discriminate; try reflexivity.
    intros e' [= <-]. reflexivity.
Qed.

Lemma DiscardAllFileChanges_tracked_witness :
  DiscardAllFileChanges quietMgr 1 modifiedFile [] =
    (Finished None, [GitCmd "reset -- 'main.go'"; GitCmd "checkout -- 'main.go'"]) /\
  DiscardAllFileChanges quietMgr 1 editedFile [] =
    (Finished None, [GitCmd "checkout -- 'notes.md'"]).
Proof.
  split.
  - apply (proj2 (DiscardAllFileChanges_tracked quietMgr modifiedFile [] 0
                    eq_refl eq_refl
                    ltac:(discriminate) ltac:(discriminate)
                    ltac:(discriminate) ltac:(discriminate)) eq_refl).
    reflexivity.
  - exact (proj1 (DiscardAllFileChanges_tracked quietMgr editedFile [] 0
                    eq_refl eq_refl
                    ltac:(discriminate) ltac:(discriminate)
                    ltac:(discriminate) ltac:(discriminate)) eq_refl).
Defined.

Lemma failFast_cons c h x t res :
  answerTo c h x = None -> failFast c (h ++ [x]) t res -> failFast c h (x :: t) res.
Proof.
  intros Hx Ht. destruct t as [|y t].
  - cbn in Ht |- *. congruence.
  - split; assumption.
Qed.

Lemma failFast_inv c h x t :
  failFast c h (x :: t) None ->
  answerTo c h x = None /\ failFast c (h ++ [x]) t None.
Proof.
  destruct t as [|y t]; cbn [failFast].
  - intros H. split; [symmetry; exact H | reflexivity].
  - intros H. exact H.
Qed.

(** Calls made after a run that ended without error extend it. *)
Lemma failFast_app c t1 : forall h t2 res,
  failFast c h t1 None -> failFast c (h ++ t1) t2 res -> failFast c h (t1 ++ t2) res.
Proof.
  induction t1 as [|x t1 IH]; intros h t2 res H1 H2.
  - rewrite app_nil_r in H2. exact H2.
  - apply failFast_inv in H1 as [Hx H1]. cbn [app].
    apply failFast_cons; [exact Hx|]. apply IH; [exact H1|].
    rewrite <- app_assoc. exact H2.
Qed.

Lemma matched_in name files f :
  matched name files = Some f -> In f files /\ Name f = name.
Proof.
  intros H. apply matched_last in H as (l1 & l2 & -> & Hn & _).
  split; [apply in_or_app; right; left; reflexivity | exact Hn].
Qed.

Lemma matched_none_inv name files :
  matched name files = None -> forall f, In f files -> Name f <> name.
Proof.
  intros H f Hf Hn. unfold matched in H.
  pose proof (find_none _ _ H f (proj1 (in_rev files f) Hf)) as Hx.
  cbn in Hx. apply String.eqb_neq in Hx. exact (Hx Hn).
Qed.

(** The discard of a record that is not a rename: at most two calls, none of
    them a status load, each issued only after the one before it succeeded,
    the result being the answer to the last. *)
Lemma DiscardAllFileChanges_plain_run c file h :
  IsRename file = false ->
  exists err t,
    DiscardAllFileChanges c 1 file h = (Finished err, t) /\
    length t <= 2 /\ forallb isDiscardCall t = true /\ reloads t = [] /\
    failFast c h t err.
Proof.
  intros H. cbn [DiscardAllFileChanges]. rewrite H.
  unfold bind, RunGitCmdFromStr, DiscardUnstagedFileChanges, perform, ret.
  run_cases_eq; rewrite ?app_nil_r; eexists; eexists; (split; [reflexivity|]);
    cbn [length app forallb isDiscardCall andb reloads filter isStatusLoad
         failFast answerTo];
    repeat split; auto; try congruence.
Qed.

(** Every run of [DiscardAllFileChanges] with room for one nested call. *)
Lemma DiscardAllFileChanges_run c file h stack :
  exists err t,
    DiscardAllFileChanges c (S (S stack)) file h = (Finished err, t) /\
    length t <= 5 /\ forallb isDiscardCall t = true /\
    ((exists e, err = Some e /\ RenameResolutionError e /\
                t = [StatusLoad (mkOpts true)]) \/
     failFast c h t err).
Proof.
  destruct (IsRename file) eqn:Hr.
  - pose proof (beforeAndAfterFileForRename_eq c file h Hr) as Hba.
    destruct (matched (PreviousName file) _) as [b|] eqn:Eb;
      [destruct (matched (Name file) _) as [a|] eqn:Ea;
       [destruct (IsRename b || IsRename a) eqn:Eg|]|].
    2: {
      apply orb_false_elim in Eg as [Hb Ha].
      rewrite (DiscardAllFileChanges_rename_eq c file h stack b a Hr Hba).
      destruct (DiscardAllFileChanges_plain_run c b (h ++ [StatusLoad (mkOpts true)]) Hb)
        as (e1 & t1 & E1 & L1 & K1 & _ & F1). rewrite E1.
      destruct e1 as [e1|].
      - exists (Some e1), (StatusLoad (mkOpts true) :: t1).
        split; [reflexivity|]. split; [cbn; lia|]. split; [exact K1|].
        right. apply failFast_cons; [reflexivity | exact F1].
      - destruct (DiscardAllFileChanges_plain_run c a
                    (h ++ StatusLoad (mkOpts true) :: t1) Ha)
          as (e2 & t2 & E2 & L2 & K2 & _ & F2). rewrite E2. cbn [fst snd].
        exists e2, (StatusLoad (mkOpts true) :: t1 ++ t2).
        split; [reflexivity|]. split; [cbn; rewrite length_app; lia|].
        split; [cbn [forallb isDiscardCall andb]; rewrite forallb_app, K1, K2; reflexivity|].
        right. apply failFast_cons; [reflexivity|].
        apply failFast_app; [exact F1|]. rewrite <- app_assoc. exact F2. }
    all: rewrite (DiscardAllFileChanges_rename_unresolved c file h (S stack) _ _ Hr Hba);
      eexists; eexists; (split; [reflexivity|]); (split; [cbn; lia|]);
      (split; [reflexivity|]); left; eexists; split; [reflexivity|];
      unfold RenameResolutionError; split; [tauto | reflexivity].
  - rewrite (DiscardAllFileChanges_plain_depth c file h (S stack) Hr).
    destruct (DiscardAllFileChanges_plain_run c file h Hr)
      as (e & t & E & L & K & _ & F).
    exists e, t. split; [exact E|]. split; [lia|]. split; [exact K|]. right. exact F.
Qed.

(** X4: the discard of a rename whose halves resolve to records that are not
    renames is the reload followed by the discard of the before half and then
    that of the after half: when the before half fails, its error is returned
    and nothing is issued for the after half; otherwise the result is that of
    the after half. *)
Theorem DiscardAllFileChanges_rename_halves
    (c : WorktreeMgr) (file : File) (h : History) (stack : nat)
    (beforeFile afterFile : File) :
  IsRename file = true ->
  matched (PreviousName file) (statusFilesLoader_Load c h (mkOpts true)) = Some beforeFile ->
  matched (Name file) (statusFilesLoader_Load c h (mkOpts true)) = Some afterFile ->
  IsRename beforeFile = false ->
  IsRename afterFile = false ->
  (forall e t1,
     DiscardAllFileChanges c 1 beforeFile (h ++ [StatusLoad (mkOpts true)]) =
       (Finished (Some e), t1) ->
     DiscardAllFileChanges c (S (S stack)) file h =
       (Finished (Some e), StatusLoad (mkOpts true) :: t1)) /\
  (forall t1 o t2,
     DiscardAllFileChanges c 1 beforeFile (h ++ [StatusLoad (mkOpts true)]) =
       (Finished None, t1) ->
     DiscardAllFileChanges c 1 afterFile (h ++ StatusLoad (mkOpts true) :: t1) =
       (o, t2) ->
     DiscardAllFileChanges c (S (S stack)) file h =
       (o, StatusLoad (mkOpts true) :: t1 ++ t2)).
Proof.
  intros Hr Hb Ha Hbr Har.
  pose proof (beforeAndAfterFileForRename_eq c file h Hr) as Hba.
  rewrite Hb, Ha, Hbr, Har in Hba. cbn [orb] in Hba.
  rewrite (DiscardAllFileChanges_rename_eq c file h stack beforeFile afterFile Hr Hba).
  split.
  - intros e t1 E1. rewrite E1. reflexivity.
  - intros t1 o t2 E1 E2. rewrite E1, E2. reflexivity.
Qed.

Lemma DiscardAllFileChanges_rename_halves_witness :
  DiscardAllFileChanges renameMock 2 renamedFile [] =
    (Finished None,
     StatusLoad (mkOpts true) ::
       [GitCmd "reset -- 'old.txt'"; GitCmd "checkout -- 'old.txt'"] ++
       [GitCmd "reset -- 'new.txt'"; RemoveFile "new.txt"]).
Proof.
  apply (proj2 (DiscardAllFileChanges_rename_halves renameMock renamedFile [] 0
                  deletedHalf addedHalf eq_refl eq_refl eq_refl eq_refl eq_refl));
    reflexivity.
Defined.

(** X5: a discard of one file makes at most five calls (the reload and at
    most two for each half), and only status loads, git commands and file
    removals through the filesystem collaborator; for a record that is not a
    rename it makes at most two calls and never loads the status. *)
Theorem DiscardAllFileChanges_call_budget
    (c : WorktreeMgr) (file : File) (h : History) (stack : nat) :
  length (issued (DiscardAllFileChanges c (S (S stack)) file) h) <= 5 /\
  forallb isDiscardCall (issued (DiscardAllFileChanges c (S (S stack)) file) h) = true /\
  (IsRename file = false ->
   length (issued (DiscardAllFileChanges c (S (S stack)) file) h) <= 2 /\
   reloads (issued (DiscardAllFileChanges c (S (S stack)) file) h) = []).
Proof.
  unfold issued.
  destruct (DiscardAllFileChanges_run c file h stack) as (err & t & E & L & K & _).
  rewrite E. cbn [snd]. split; [exact L|]. split; [exact K|].
  intros Hr. rewrite (DiscardAllFileChanges_plain_depth c file h (S stack) Hr) in E.
  destruct (DiscardAllFileChanges_plain_run c file h Hr) as (e' & t' & E' & L' & _ & R' & _).
  rewrite E' in E. injection E as _ <-. split; assumption.
Qed.

(** X6: no call is made after one that failed, and errors are handed back as
    they came: a discard of one file either returns a rename resolution error
    with the reload as its only call, or every call but the last was answered
    without error and the result is the answer to the last call (nil when
    there was none). *)
Theorem DiscardAllFileChanges_fail_fast
    (c : WorktreeMgr) (file : File) (h : History) (stack : nat) :
  (exists e,
     DiscardAllFileChanges c (S (S stack)) file h =
       (Finished (Some e), [StatusLoad (mkOpts true)]) /\
     RenameResolutionError e)
  \/
  (exists err,
     result (DiscardAllFileChanges c (S (S stack)) file) h = Finished err /\
     failFast c h (issued (DiscardAllFileChanges c (S (S stack)) file) h) err).
Proof.
  unfold result, issued.
  destruct (DiscardAllFileChanges_run c file h stack)
    as (err & t & E & _ & _ & [(e & -> & He & ->) | F]); rewrite E.
  - left. exists e. split; [reflexivity | exact He].
  - right. exists err. split; [reflexivity | exact F].
Qed.

(** ** Further properties of the resolution of a rename *)

(** X7: when [beforeAndAfterFileForRename] succeeds, its only call was the
    reload in no-renames mode, the file given was a rename, and the two records
    handed back are records of the reload, the first carrying the previous
    name and the second the current name, each the last record of the reload
    with that name, and neither a rename. *)
Theorem beforeAndAfterFileForRename_success
    (c : WorktreeMgr) (file : File) (h : History)
    (beforeFile afterFile : File) (t : list Call) :
  beforeAndAfterFileForRename c file h = (inl (beforeFile, afterFile), t) ->
  t = [StatusLoad (mkOpts true)] /\
  IsRename file = true /\
  matched (PreviousName file) (statusFilesLoader_Load c h (mkOpts true)) = Some beforeFile /\
  matched (Name file) (statusFilesLoader_Load c h (mkOpts true)) = Some afterFile /\
  In beforeFile (statusFilesLoader_Load c h (mkOpts true)) /\
  In afterFile (statusFilesLoader_Load c h (mkOpts true)) /\
  Name beforeFile = PreviousName file /\
  Name afterFile = Name file /\
  IsRename beforeFile = false /\
  IsRename afterFile = false /\
  (exists l1 l2,
     statusFilesLoader_Load c h (mkOpts true) = l1 ++ beforeFile :: l2 /\
     forall g, In g l2 -> Name g <> PreviousName file) /\
  (exists l1 l2,
     statusFilesLoader_Load c h (mkOpts true) = l1 ++ afterFile :: l2 /\
     forall g, In g l2 -> Name g <> Name file).
Proof.
  intros H. destruct (IsRename file) eqn:Hr.
  - rewrite (beforeAndAfterFileForRename_eq c file h Hr) in H.
    destruct (matched (PreviousName file) _) as [b|] eqn:Eb; [|discriminate].
    destruct (matched (Name file) _) as [a|] eqn:Ea; [|discriminate].
    destruct (IsRename b || IsRename a) eqn:Eg; [discriminate|].
    injection H as <- <- <-. apply orb_false_elim in Eg as [Hb Ha].
    destruct (matched_in _ _ _ Eb) as [Ib Nb].
    destruct (matched_in _ _ _ Ea) as [Ia Na].
    destruct (proj1 (matched_last _ _ _) Eb) as (b1 & b2 & Lb & _ & Lastb).
    destruct (proj1 (matched_last _ _ _) Ea) as (a1 & a2 & La & _ & Lasta).
    repeat split; try assumption; [exists b1, b2 | exists a1, a2]; split; assumption.
  - unfold beforeAndAfterFileForRename in H. rewrite Hr in H. discriminate.
Qed.

Lemma beforeAndAfterFileForRename_success_witness :
  Name deletedHalf = PreviousName renamedFile /\ Name addedHalf = Name renamedFile.
Proof.
  pose proof (beforeAndAfterFileForRename_success renameMock renamedFile []
                deletedHalf addedHalf [StatusLoad (mkOpts true)] eq_refl) as H.
  split; [exact (proj1 (proj2 (proj2 (proj2 (proj2 (proj2 (proj2 H)))))))
         | exact (proj1 (proj2 (proj2 (proj2 (proj2 (proj2 (proj2 (proj2 H))))))))].
Defined.

(** X8: the three errors of [beforeAndAfterFileForRename], each with its
    cause: on a record that is not a rename the error is the expected-rename
    message and no call is made; on a rename, after the reload, the error is
    the could-not-find message exactly when the reload has no record of the
    previous name or none of the current name, and the nested-rename message
    exactly when both names resolve and one of the two records is a rename. *)
Theorem beforeAndAfterFileForRename_errors
    (c : WorktreeMgr) (file : File) (h : History) (e : error) (t : list Call) :
  beforeAndAfterFileForRename c file h = (inr e, t) ->
  (IsRename file = false /\ t = [] /\ e = errors_New "Expected renamed file")
  \/
  (IsRename file = true /\ t = [StatusLoad (mkOpts true)] /\
   e = errors_New "Could not find deleted file or new file for file rename" /\
   ((forall f, In f (statusFilesLoader_Load c h (mkOpts true)) ->
               Name f <> PreviousName file) \/
    (forall f, In f (statusFilesLoader_Load c h (mkOpts true)) ->
               Name f <> Name file)))
  \/
  (IsRename file = true /\ t = [StatusLoad (mkOpts true)] /\
   e = errors_New "Nested rename found" /\
   exists b a,
     matched (PreviousName file) (statusFilesLoader_Load c h (mkOpts true)) = Some b /\
     matched (Name file) (statusFilesLoader_Load c h (mkOpts true)) = Some a /\
     (IsRename b = true \/ IsRename a = true)).
Proof.
  intros H. destruct (IsRename file) eqn:Hr.
  - right. rewrite (beforeAndAfterFileForRename_eq c file h Hr) in H.
    destruct (matched (PreviousName file) _) as [b|] eqn:Eb.
    + destruct (matched (Name file) _) as [a|] eqn:Ea.
      * destruct (IsRename b || IsRename a) eqn:Eg; [|discriminate].
        injection H as <- <-. right. repeat split.
        exists b, a. repeat split. apply orb_true_iff, Eg.
      * injection H as <- <-. left. repeat split.
        right. exact (matched_none_inv _ _ Ea).
    + injection H as <- <-. left. repeat split.
      left. exact (matched_none_inv _ _ Eb).
  - left. unfold beforeAndAfterFileForRename in H. rewrite Hr in H.
    cbn [negb] in H. injection H as <- <-. repeat split.
Qed.

Lemma beforeAndAfterFileForRename_errors_witness :
  exists b a,
    matched (PreviousName renamedFile) [renamedAgain; addedHalf] = Some b /\
    matched (Name renamedFile) [renamedAgain; addedHalf] = Some a /\
    (IsRename b = true \/ IsRename a = true).
Proof.
  destruct (beforeAndAfterFileForRename_errors nestedRenameMock renamedFile []
              (errors_New "Nested rename found") [StatusLoad (mkOpts true)] eq_refl)
    as [(H & _) | [(_ & _ & H & _) | (_ & _ & _ & H)]].
  - discriminate H.
  - discriminate H.
  - exact H.
Defined.

(** ** Further properties of the directory operations *)

Lemma firstn_sub {A} (k : nat) : forall (l : list A) x, In x (firstn k l) -> In x l.
Proof.
  induction k as [|k IH]; intros [|y l] x H; cbn in H; try contradiction.
  destruct H as [-> | H]; [left; reflexivity | right; exact (IH l x H)].
Qed.

Lemma forallb_firstn {A} (f : A -> bool) (k : nat) : forall l,
  forallb f l = true -> forallb f (firstn k l) = true.
Proof.
  induction k as [|k IH]; intros [|y l] H; cbn in *; try reflexivity.
  apply andb_prop in H as [Hy Hl]. rewrite Hy, (IH l Hl). reflexivity.
Qed.

(** Induction on a tree node, with the property known for all its children. *)
Lemma FileNode_nested_ind (P : filetree.FileNode -> Prop) :
  (forall cs f p, Forall P cs -> P (filetree.mkFileNode cs f p)) ->
  forall n, P n.
Proof.
  intros H. fix IH 1. intros [cs f p]. apply H.
  induction cs as [|child cs IHcs]; constructor; [apply IH | exact IHcs].
Qed.

(** A listed path is the path of a node under the root that passes the test. *)
Lemma GetPathsMatching_sound test : forall n p,
  In p (filetree.GetPathsMatching test n) ->
  exists m, filetree.Under n m /\ test m = true /\ filetree.GetPath m = p.
Proof.
  induction n as [cs f q IH] using FileNode_nested_ind. intros p Hp.
  cbn [filetree.GetPathsMatching] in Hp. apply in_app_or in Hp as [Hp | Hp].
  - destruct (test (filetree.mkFileNode cs f q)) eqn:Et; [|contradiction].
    destruct Hp as [<- | []]. exists (filetree.mkFileNode cs f q).
    split; [constructor | split; [exact Et | reflexivity]].
  - apply in_flat_map in Hp as (child & Hin & Hp).
    rewrite Forall_forall in IH.
    destruct (IH child Hin p Hp) as (m & HU & Ht & Hm).
    exists m. split; [exact (filetree.Under_child cs f q child m Hin HU) | auto].
Qed.

Lemma isUntrackedFile_inv m :
  isUntrackedFile m = true ->
  exists f, filetree.File m = Some f /\ GetIsTracked f = false.
Proof.
  unfold isUntrackedFile. destruct (filetree.File m) as [f|]; [|discriminate].
  intros H. exists f. split; [reflexivity|]. apply negb_true_iff, H.
Qed.

Lemma untrackedPaths_sound node p :
  In p (untrackedPaths node) ->
  exists m f, filetree.Under node m /\ filetree.File m = Some f /\
              GetIsTracked f = false /\ filetree.GetPath m = p.
Proof.
  intros Hp. destruct (GetPathsMatching_sound _ _ _ Hp) as (m & HU & Ht & Hm).
  destruct (isUntrackedFile_inv m Ht) as (f & Hf & Hft).
  exists m, f. auto.
Qed.

(** With every file under the node tracked, there is nothing to remove. *)
Lemma untrackedPaths_all_tracked node :
  (forall m f, filetree.Under node m -> filetree.File m = Some f ->
               GetIsTracked f = true) ->
  untrackedPaths node = [].
Proof.
  intros H. destruct (untrackedPaths node) as [|p ps] eqn:E; [reflexivity|].
  destruct (untrackedPaths_sound node p) as (m & f & HU & Hf & Hft & _).
  - rewrite E. left. reflexivity.
  - rewrite (H m f HU Hf) in Hft. discriminate.
Qed.

Lemma removeUntrackedDirFiles_calls c node h :
  exists k, issued (removeUntrackedDirFiles c node) h =
              map OsRemove (firstn k (untrackedPaths node)).
Proof.
  destruct (range_prefix OsRemove (os_Remove c) (untrackedPaths node) h)
    as (k & _ & E & _).
  exists k. exact E.
Qed.

(** X9: [DiscardUnstagedDirChanges] removes nothing but untracked files of
    the directory: each of its calls is the checkout of the directory path or
    the removal of the path of a node under the directory that holds a file
    record which is not tracked; a tracked file is never removed from disk
    by it, and it issues no other git command. *)
Theorem DiscardUnstagedDirChanges_removes_only_untracked
    (c : WorktreeMgr) (node : filetree.FileNode) (h : History) (call : Call) :
  In call (issued (DiscardUnstagedDirChanges c node) h) ->
  call = GitCmd ("checkout -- " ++ Quote c (filetree.GetPath node)) \/
  exists m f,
    filetree.Under node m /\ filetree.File m = Some f /\
    GetIsTracked f = false /\ call = OsRemove (filetree.GetPath m).
Proof.
  unfold issued. rewrite DiscardUnstagedDirChanges_eq.
  destruct (removeUntrackedDirFiles_calls c node h) as (k & E). unfold issued in E.
  destruct (removeUntrackedDirFiles c node h) as [[e|] t]; cbn [snd] in E |- *; subst t.
  - intros Hin. right. apply in_map_iff in Hin as (p & <- & Hp).
    apply firstn_sub in Hp.
    destruct (untrackedPaths_sound node p Hp) as (m & f & HU & Hf & Hft & <-).
    exists m, f. auto.
  - intros Hin. apply in_app_or in Hin as [Hin | [<- | []]]; [|left; reflexivity].
    right. apply in_map_iff in Hin as (p & <- & Hp).
    apply firstn_sub in Hp.
    destruct (untrackedPaths_sound node p Hp) as (m & f & HU & Hf & Hft & <-).
    exists m, f. auto.
Qed.

Lemma DiscardUnstagedDirChanges_removes_only_untracked_witness :
  exists m f,
    filetree.Under srcDir m /\ filetree.File m = Some f /\
    GetIsTracked f = false /\ OsRemove "src/tmp.log" = OsRemove (filetree.GetPath m).
Proof.
  destruct (DiscardUnstagedDirChanges_removes_only_untracked quietMgr srcDir []
              (OsRemove "src/tmp.log") (or_introl eq_refl)) as [H | H].
  - discriminate H.
  - exact H.
Defined.

(** X10: on a directory under which every file is tracked,
    [DiscardUnstagedDirChanges] removes nothing: its only call is the checkout
    of the directory path, and its result is that command's. *)
Theorem DiscardUnstagedDirChanges_all_tracked
    (c : WorktreeMgr) (node : filetree.FileNode) (h : History) :
  (forall m f, filetree.Under node m -> filetree.File m = Some f ->
               GetIsTracked f = true) ->
  DiscardUnstagedDirChanges c node h =
    (runGitCmdFromStr c h ("checkout -- " ++ Quote c (filetree.GetPath node)),
     [GitCmd ("checkout -- " ++ Quote c (filetree.GetPath node))]).
Proof.
  intros H. rewrite DiscardUnstagedDirChanges_eq.
  unfold removeUntrackedDirFiles.
  change (filetree.GetPathsMatching isUntrackedFile node) with (untrackedPaths node).
  rewrite (untrackedPaths_all_tracked node H). cbn [rangeUntilError ret app].
  rewrite app_nil_r. reflexivity.
Qed.

Lemma DiscardUnstagedDirChanges_all_tracked_witness :
  DiscardUnstagedDirChanges quietMgr trackedDir [] =
    (None, [GitCmd "checkout -- 'docs'"]).
Proof.
  apply (DiscardUnstagedDirChanges_all_tracked quietMgr trackedDir []).
  intros m f HU Hf. destruct (GetIsTracked f) eqn:Et; [reflexivity|].
  destruct (untrackedPaths_cover trackedDir m f HU Hf Et).
Defined.

(** ** Further properties of reset-and-clean and of the editor chain *)

(** X11: when [ResetAndClean] returns nil it has run to its end: the
    submodule query succeeded, stash-and-reset was called exactly when the
    query listed a submodule, the hard reset to HEAD and then the removal of
    untracked files were issued last, and every one of these calls was
    answered without error. *)
Theorem ResetAndClean_nil_complete (c : WorktreeMgr) (h : History) :
  result (ResetAndClean c) h = None ->
  exists configs,
    submodulesMgr_GetConfigs c h = (configs, None) /\
    issued (ResetAndClean c) h =
      GetConfigs ::
        (match configs with [] => [] | _ :: _ => [StashAndReset configs] end) ++
        [ResetToRef "HEAD" HARD; GitCmd "clean -fd"] /\
    failFast c h (issued (ResetAndClean c) h) None.
Proof.
  unfold result, issued, ResetAndClean, RemoveUntrackedFiles, RunGitCmdFromStr.
  unfold bind, perform, ret.
  destruct (submodulesMgr_GetConfigs c h) as [configs [e|]] eqn:Hq;
    [discriminate|].
  intros Hres. exists configs. split; [reflexivity|].
  destruct configs as [|cfg configs]; cbn [length Nat.ltb Nat.leb app] in Hres |- *.
  - rewrite app_nil_r in Hres |- *.
    destruct (branchesMgr_ResetToRef c (h ++ [GetConfigs]) "HEAD" HARD) eqn:Hreset;
      [discriminate Hres|].
    cbn [fst snd app] in Hres |- *. split; [reflexivity|].
    cbn [failFast answerTo]. rewrite Hq. cbn [snd].
    repeat split; [exact Hreset | symmetry; exact Hres].
  - destruct (submodulesMgr_StashAndReset c (h ++ [GetConfigs]) (cfg :: configs))
      eqn:Hstash; [discriminate Hres|].
    destruct (branchesMgr_ResetToRef c _ "HEAD" HARD) eqn:Hreset; [discriminate Hres|].
    cbn [fst snd app] in Hres |- *. split; [reflexivity|].
    cbn [failFast answerTo]. rewrite Hq. cbn [snd].
    repeat split; [exact Hstash | exact Hreset | symmetry; exact Hres].
Qed.

Lemma ResetAndClean_nil_complete_witness :
  exists configs,
    submodulesMgr_GetConfigs quietMgr [] = (configs, None) /\
    issued (ResetAndClean quietMgr) [] =
      GetConfigs ::
        (match configs with [] => [] | _ :: _ => [StashAndReset configs] end) ++
        [ResetToRef "HEAD" HARD; GitCmd "clean -fd"] /\
    failFast quietMgr [] (issued (ResetAndClean quietMgr) []) None.
Proof. exact (ResetAndClean_nil_complete quietMgr [] eq_refl). Defined.

Lemma firstNonEmpty_prefix sources : forall h,
  exists k, k <= length sources /\ (sources <> [] -> 1 <= k) /\
    snd (firstNonEmpty sources h) = map fst (firstn k sources).
Proof.
  induction sources as [|s rest IH]; intros h.
  - exists 0. repeat split; [lia | congruence].
  - rewrite firstNonEmpty_step. destruct (snd s h =? "").
    + destruct (IH (h ++ [fst s])) as (k & Hk & _ & E).
      exists (S k). cbn [length snd firstn map]. rewrite E.
      repeat split; lia.
    + exists 1. cbn [length snd firstn map]. repeat split; lia.
Qed.

(** X12: [EditFileCmdObj] only looks things up: its calls are the first k of
    the six lookups of the chain, for some k from one to six, and none of them
    is a git command or a file removal; a command it returns is the shell
    command of a non-empty editor followed by a space and the quoted file
    name; the only error it returns is the no-editor error, and then all six
    lookups were made: a failure of the which-vi probe is never handed back. *)
Theorem EditFileCmdObj_lookups_only
    (c : WorktreeMgr) (filename : string) (h : History) :
  (exists k, 1 <= k <= 6 /\
     issued (EditFileCmdObj c filename) h = firstn k editorCalls) /\
  forallb (fun call => negb (isMutation call)) (issued (EditFileCmdObj c filename) h) = true /\
  (forall cmdObj,
     result (EditFileCmdObj c filename) h = inl cmdObj ->
     exists editor,
       editor <> "" /\ cmdObj = BuildShellCmdObj (editor ++ " " ++ Quote c filename)) /\
  (forall e,
     result (EditFileCmdObj c filename) h = inr e ->
     NoEditorConfiguredError e /\ issued (EditFileCmdObj c filename) h = editorCalls).
Proof.
  unfold result, issued. rewrite EditFileCmdObj_chain. cbn [fst snd].
  destruct (firstNonEmpty_prefix (editorSources c) h) as (k & Hk & Hk1 & E).
  assert (Ecalls : snd (firstNonEmpty (editorSources c) h) = firstn k editorCalls).
  { rewrite E, <- firstn_map. reflexivity. }
  split; [|split; [|split]].
  - exists k. split; [|exact Ecalls].
    split; [apply Hk1; discriminate | exact Hk].
  - rewrite Ecalls. apply forallb_firstn. reflexivity.
  - intros cmdObj H.
    destruct (fst (firstNonEmpty (editorSources c) h) =? "") eqn:Ee; [discriminate|].
    injection H as <-. eexists. split; [|reflexivity].
    apply String.eqb_neq, Ee.
  - intros e H.
    destruct (fst (firstNonEmpty (editorSources c) h) =? "") eqn:Ee; [|discriminate].
    injection H as <-. split; [reflexivity|].
    apply String.eqb_eq in Ee.
    rewrite (firstNonEmpty_none (editorSources c) h
               (firstNonEmpty_empty (editorSources c) h Ee)).
    reflexivity.
Qed.

(** X13: the file name plays no part in the choice of the editor: for two
    file names [EditFileCmdObj] makes the same calls, and fails for the one
    exactly when it fails for the other. *)
Theorem EditFileCmdObj_filename_independent
    (c : WorktreeMgr) (filename1 filename2 : string) (h : History) :
  issued (EditFileCmdObj c filename1) h = issued (EditFileCmdObj c filename2) h /\
  ((exists e, result (EditFileCmdObj c filename1) h = inr e) <->
   (exists e, result (EditFileCmdObj c filename2) h = inr e)).
Proof.
  unfold result, issued. rewrite !EditFileCmdObj_chain. cbn [fst snd].
  split; [reflexivity|].
  destruct (fst (firstNonEmpty (editorSources c) h) =? "");
    split; intros [e H]; try discriminate; eexists; reflexivity.
Qed.

(** ** Further branches of the discard of one file *)

(** X14: a record that is not a rename, is flagged as added, has staged
    changes and a short status other than AA, DU, DD and AU is first reset
    out of the index and then removed from disk through the filesystem
    collaborator; the file is not removed when the reset fails, and no
    checkout is issued. *)
Theorem DiscardAllFileChanges_added_staged
    (c : WorktreeMgr) (file : File) (h : History) (stack : nat) :
  IsRename file = false ->
  Added file = true ->
  HasStagedChanges file = true ->
  ShortStatus file <> "AA" -> ShortStatus file <> "DU" ->
  ShortStatus file <> "DD" -> ShortStatus file <> "AU" ->
  (forall e,
     runGitCmdFromStr c h ("reset -- " ++ Quote c (Name file)) = Some e ->
     DiscardAllFileChanges c (S stack) file h =
       (Finished (Some e), [GitCmd ("reset -- " ++ Quote c (Name file))])) /\
  (runGitCmdFromStr c h ("reset -- " ++ Quote c (Name file)) = None ->
     DiscardAllFileChanges c (S stack) file h =
       (Finished (os_RemoveFile c
                    (h ++ [GitCmd ("reset -- " ++ Quote c (Name file))]) (Name file)),
        [GitCmd ("reset -- " ++ Quote c (Name file)); RemoveFile (Name file)])).
Proof.
  intros Hr Ha Hst HAA HDU HDD HAU.
  rewrite (DiscardAllFileChanges_plain_depth c file h stack Hr).
  cbn [DiscardAllFileChanges]. rewrite Hr, Ha, Hst.
  rewrite (proj2 (String.eqb_neq _ _) HAA), (proj2 (String.eqb_neq _ _) HDU).
  rewrite (proj2 (String.eqb_neq _ _) HDD), (proj2 (String.eqb_neq _ _) HAU).
  cbn [orb]. unfold bind, RunGitCmdFromStr, perform, ret.
  destruct (runGitCmdFromStr c h _) as [e|]; split;
    try discriminate; try reflexivity.
  intros e' [= <-]. reflexivity.
Qed.

Lemma DiscardAllFileChanges_added_staged_witness :
  DiscardAllFileChanges quietMgr 1 stagedNewFile [] =
    (Finished None, [GitCmd "reset -- 'fresh.txt'"; RemoveFile "fresh.txt"]).
Proof.
  apply (proj2 (DiscardAllFileChanges_added_staged quietMgr stagedNewFile [] 0
                  eq_refl eq_refl eq_refl
                  ltac:(discriminate) ltac:(discriminate)
                  ltac:(discriminate) ltac:(discriminate))).
  reflexivity.
Defined.

(** X15: a discard of one file makes no call at all exactly when the record
    is not a rename, has short status DD or AU, and has neither staged changes
    nor merge conflicts; it then returns nil. *)
Theorem DiscardAllFileChanges_no_call_iff
    (c : WorktreeMgr) (file : File) (h : History) (stack : nat) :
  (issued (DiscardAllFileChanges c (S stack) file) h = [] <->
   IsRename file = false /\
   (ShortStatus file = "DD" \/ ShortStatus file = "AU") /\
   HasStagedChanges file = false /\ HasMergeConflicts file = false) /\
  (issued (DiscardAllFileChanges c (S stack) file) h = [] ->
   result (DiscardAllFileChanges c (S stack) file) h = Finished None).
Proof.
  unfold issued, result. destruct (IsRename file) eqn:Hr.
  - assert (Hne : snd (DiscardAllFileChanges c (S stack) file h) <> []).
    { rewrite DiscardAllFileChanges_unfold, Hr. unfold bind.
      pose proof (beforeAndAfterFileForRename_trace c file h Hr) as Ht.
      destruct (beforeAndAfterFileForRename c file h) as [[[b a]|e] t0];
        cbn [snd] in Ht; subst t0; [|discriminate].
      destruct (DiscardAllFileChanges c stack b _) as [[[e1|]|] t1];
        [discriminate | | discriminate].
      destruct (DiscardAllFileChanges c stack a _) as [[[e2|]|] t2]; discriminate. }
    split; [split|]; intros H; [contradiction | | contradiction].
    destruct H as [H _]. discriminate.
  - rewrite (DiscardAllFileChanges_plain_depth c file h stack Hr).
    cbn [DiscardAllFileChanges]. rewrite Hr.
    unfold bind, RunGitCmdFromStr, DiscardUnstagedFileChanges, perform, ret.
    destruct (ShortStatus file =? "AA") eqn:EAA.
    { apply String.eqb_eq in EAA.
      split; [split|]; run_cases; cbn [snd app]; try discriminate;
        intros (_ & [Hs | Hs] & _); rewrite Hs in EAA; discriminate. }
    destruct (ShortStatus file =? "DU") eqn:EDU.
    { apply String.eqb_eq in EDU.
      split; [split|]; cbn [snd app]; try discriminate;
        intros (_ & [Hs | Hs] & _); rewrite Hs in EDU; discriminate. }
    destruct (HasStagedChanges file) eqn:Est; cbn [orb].
    { split; [split|]; run_cases; cbn [snd app]; try discriminate;
        intros (_ & _ & Hx & _); discriminate. }
    destruct (HasMergeConflicts file) eqn:Emc.
    { split; [split|]; run_cases; cbn [snd app]; try discriminate;
        intros (_ & _ & _ & Hx); discriminate. }
    destruct ((ShortStatus file =? "DD") || (ShortStatus file =? "AU")) eqn:Eno.
    + cbn [fst snd app]. split; [split|]; auto. intros _.
      apply orb_true_iff in Eno as [E | E]; apply String.eqb_eq in E; auto.
    + apply orb_false_elim in Eno as [EDD EAU].
      apply String.eqb_neq in EDD, EAU.
      split; [split|]; run_cases; cbn [snd app]; try discriminate;
        intros (_ & [Hs | Hs] & _); contradiction.
Qed.

(** ** Properties of the discard of all changes under a directory *)

Lemma eachUntilError_app cb l1 : forall l2 h,
  eachUntilError cb (l1 ++ l2) h =
    match eachUntilError cb l1 h with
    | (Finished None, t1) =>
        (fst (eachUntilError cb l2 (h ++ t1)),
         t1 ++ snd (eachUntilError cb l2 (h ++ t1)))
    | (o, t1) => (o, t1)
    end.
Proof.
  induction l1 as [|f l1 IH]; intros l2 h.
  - cbn [app eachUntilError]. unfold ret. rewrite app_nil_r.
    destruct (eachUntilError cb l2 h); reflexivity.
  - cbn [app eachUntilError]. unfold bind.
    destruct (cb f h) as [[[e|]|] t]; unfold ret; cbn [app]; try reflexivity.
    rewrite IH.
    destruct (eachUntilError cb l1 (h ++ t)) as [[[e1|]|] t1]; try reflexivity.
    cbn [fst snd]. rewrite <- !app_assoc.
    destruct (eachUntilError cb l2 (h ++ t ++ t1)); reflexivity.
Qed.

Lemma eachChild_flat cb each children :
  Forall (fun child => forall h, each child h = eachUntilError cb (filesOf child) h)
         children ->
  forall h, eachChild each children h = eachUntilError cb (flat_map filesOf children) h.
Proof.
  induction 1 as [|child rest Hc _ IH]; intros h; [reflexivity|].
  cbn [eachChild flat_map]. rewrite eachUntilError_app. unfold bind.
  rewrite Hc. destruct (eachUntilError cb (filesOf child) h) as [[[e|]|] t];
    unfold ret; try (rewrite app_nil_r; reflexivity).
  rewrite IH. destruct (eachUntilError cb (flat_map filesOf rest) (h ++ t)); reflexivity.
Qed.

(** [ForEachFile] visits the records of [filesOf] in order. *)
Lemma ForEachFile_flat cb : forall node h,
  ForEachFile cb node h = eachUntilError cb (filesOf node) h.
Proof.
  induction node as [cs f p IH] using FileNode_nested_ind. intros h.
  cbn [ForEachFile filesOf]. unfold bind. destruct f as [f|].
  - cbn [app eachUntilError]. unfold bind.
    destruct (cb f h) as [[[e|]|] t]; try reflexivity.
    rewrite (eachChild_flat cb (ForEachFile cb) cs IH). reflexivity.
  - unfold ret at 1. cbn [app]. rewrite app_nil_r.
    rewrite (eachChild_flat cb (ForEachFile cb) cs IH).
    destruct (eachUntilError cb (flat_map filesOf cs) h); reflexivity.
Qed.

Lemma filesOf_cover node m f :
  filetree.Under node m -> filetree.File m = Some f -> In f (filesOf node).
Proof.
  intros HU Hf. induction HU as [n | cs f' p child n Hin HU IH].
  - destruct n as [cs f' p]. cbn in Hf. subst f'. left. reflexivity.
  - cbn [filesOf]. apply in_or_app. right.
    apply in_flat_map. exists child. split; [exact Hin | exact (IH Hf)].
Qed.

Lemma filesOf_sound : forall node f,
  In f (filesOf node) -> exists m, filetree.Under node m /\ filetree.File m = Some f.
Proof.
  induction node as [cs f' p IH] using FileNode_nested_ind. intros f Hf.
  cbn [filesOf] in Hf. apply in_app_or in Hf as [Hf | Hf].
  - destruct f' as [f'|]; [|contradiction]. destruct Hf as [<- | []].
    exists (filetree.mkFileNode cs (Some f') p). split; [constructor | reflexivity].
  - apply in_flat_map in Hf as (child & Hin & Hf). rewrite Forall_forall in IH.
    destruct (IH child Hin f Hf) as (m & HU & Hm).
    exists m. split; [exact (filetree.Under_child cs f' p child m Hin HU) | exact Hm].
Qed.

Lemma discardedAll_calls c h files t :
  discardedAll c h files t ->
  length t <= 5 * length files /\ forallb isDiscardCall t = true.
Proof.
  induction 1 as [h | h f fs t ts E _ [IHl IHk]]; [split; [cbn; lia | reflexivity]|].
  destruct (DiscardAllFileChanges_run c f h 0) as (err & t' & E' & L & K & _).
  rewrite E in E'. injection E' as _ <-.
  split; [rewrite length_app; cbn [length]; lia | rewrite forallb_app, K, IHk; reflexivity].
Qed.

(** The loop of discards over a list of files: all of them without error, or
    the files up to the first whose discard fails. *)
Lemma eachUntilError_discard c stack files : forall h,
  (discardedAll c h files
     (snd (eachUntilError (DiscardAllFileChanges c (S (S stack))) files h)) /\
   fst (eachUntilError (DiscardAllFileChanges c (S (S stack))) files h) = Finished None)
  \/
  (exists e l1 f l2 t1 tf,
     files = l1 ++ f :: l2 /\
     discardedAll c h l1 t1 /\
     DiscardAllFileChanges c 2 f (h ++ t1) = (Finished (Some e), tf) /\
     eachUntilError (DiscardAllFileChanges c (S (S stack))) files h =
       (Finished (Some e), t1 ++ tf)).
Proof.
  induction files as [|f files IH]; intros h.
  - left. split; [constructor | reflexivity].
  - cbn [eachUntilError]. unfold bind. rewrite DiscardAllFileChanges_depth2.
    destruct (DiscardAllFileChanges_run c f h 0) as (err & t & E & _). rewrite E.
    destruct err as [e|].
    + right. exists e, [], f, files, [], t. cbn [app]. rewrite app_nil_r.
      unfold ret. rewrite app_nil_r. repeat split; [constructor | exact E].
    + destruct (IH (h ++ t)) as [[Hall Hres] | (e & l1 & g & l2 & t1 & tf & -> & Hall & Eg & Er)].
      * left. destruct (eachUntilError _ files (h ++ t)) as [o ts].
        cbn [fst snd] in *. split; [constructor; assumption | exact Hres].
      * right. exists e, (f :: l1), g, l2, (t ++ t1), tf. rewrite Er.
        repeat split.
        -- constructor; assumption.
        -- rewrite app_assoc. exact Eg.
        -- rewrite app_assoc. reflexivity.
Qed.

(** X16: [DiscardAllDirChanges] discards the file records under the node
    one after the other and stops at the first failure: every file record
    under the node is in the list it walks, and either all of them were
    discarded without error, in order, and nil is returned, or the records
    before some record were discarded without error, the discard of that
    record failed, its error is returned, and no call was made for the
    records after it. *)
Theorem DiscardAllDirChanges_in_order
    (c : WorktreeMgr) (stack : nat) (node : filetree.FileNode) (h : History) :
  (forall m f, filetree.Under node m -> filetree.File m = Some f ->
               In f (filesOf node)) /\
  ((discardedAll c h (filesOf node)
      (issued (DiscardAllDirChanges c (S (S stack)) node) h) /\
    result (DiscardAllDirChanges c (S (S stack)) node) h = Finished None)
   \/
   (exists e l1 f l2 t1 tf,
      filesOf node = l1 ++ f :: l2 /\
      discardedAll c h l1 t1 /\
      DiscardAllFileChanges c 2 f (h ++ t1) = (Finished (Some e), tf) /\
      DiscardAllDirChanges c (S (S stack)) node h = (Finished (Some e), t1 ++ tf))).
Proof.
  split; [intros m f; apply filesOf_cover|].
  unfold issued, result, DiscardAllDirChanges. rewrite ForEachFile_flat.
  exact (eachUntilError_discard c stack (filesOf node) h).
Qed.

(** X17: [DiscardAllDirChanges] returns when each discard has room for one
    nested call, with the same result and calls on any larger stack; it makes
    at most five calls for each file record under the node, all of them status
    loads, git commands or file removals; and on a node under which there is
    no file record it makes no call and returns nil. *)
Theorem DiscardAllDirChanges_terminates
    (c : WorktreeMgr) (node : filetree.FileNode) (h : History) :
  (exists err t,
     (forall stack, 2 <= stack ->
        DiscardAllDirChanges c stack node h = (Finished err, t)) /\
     length t <= 5 * length (filesOf node) /\
     forallb isDiscardCall t = true) /\
  ((forall m, filetree.Under node m -> filetree.File m = None) ->
   forall stack, DiscardAllDirChanges c stack node h = (Finished None, [])).
Proof.
  split.
  - assert (Hs : forall stack,
       DiscardAllDirChanges c (S (S stack)) node h = DiscardAllDirChanges c 2 node h).
    { intros stack. unfold DiscardAllDirChanges. rewrite !ForEachFile_flat.
      generalize h. induction (filesOf node) as [|f fs IH]; intros h'; [reflexivity|].
      cbn [eachUntilError]. unfold bind. rewrite DiscardAllFileChanges_depth2.
      destruct (DiscardAllFileChanges c 2 f h') as [[[e|]|] t]; try reflexivity.
      rewrite IH. reflexivity. }
    pose proof (eachUntilError_discard c 0 (filesOf node) h) as Hcases.
    unfold DiscardAllDirChanges in *. rewrite ForEachFile_flat in Hs.
    destruct (eachUntilError (DiscardAllFileChanges c 2) (filesOf node) h)
      as [o t] eqn:E.
    destruct Hcases as [[Hall Hres] | (e & l1 & f & l2 & t1 & tf & Hf & Hall & Ef & Er)].
    + cbn [fst snd] in *. subst o. exists None, t. split.
      * intros [|[|stack]] Hst; try lia. rewrite Hs. reflexivity.
      * exact (discardedAll_calls c h _ t Hall).
    + injection Er as -> ->. exists (Some e), (t1 ++ tf). split.
      * intros [|[|stack]] Hst; try lia. rewrite Hs. reflexivity.
      * destruct (discardedAll_calls c h l1 t1 Hall) as [L1 K1].
        destruct (DiscardAllFileChanges_run c f (h ++ t1) 0) as (err & t' & E' & L & K & _).
        rewrite Ef in E'. injection E' as _ <-.
        rewrite Hf, !length_app, forallb_app, K1, K. cbn [length]. split; [lia | reflexivity].
  - intros Hnone stack. unfold DiscardAllDirChanges. rewrite ForEachFile_flat.
    destruct (filesOf node) as [|f fs] eqn:E; [reflexivity|].
    destruct (filesOf_sound node f) as (m & HU & Hm); [rewrite E; left; reflexivity|].
    rewrite (Hnone m HU) in Hm. discriminate.
Qed.

Example DiscardAllDirChanges_run :
  DiscardAllDirChanges quietMgr 2 workDir [] =
    (Finished None,
     [GitCmd "checkout -- 'notes.md'";
      GitCmd "reset -- 'fresh.txt'"; RemoveFile "fresh.txt";
      GitCmd "reset -- 'main.go'"; GitCmd "checkout -- 'main.go'"]).
Proof. reflexivity. Qed.

Example DiscardAllDirChanges_stops :
  DiscardAllDirChanges resetFailsMock 2 workDir [] =
    (Finished (Some (ExecutionError "reset -- 'fresh.txt'")),
     [GitCmd "checkout -- 'notes.md'"; GitCmd "reset -- 'fresh.txt'"]).
Proof. reflexivity. Qed.
